(** * setup.py: a shallow embedding of the bootstrap script and its properties

    The script [setup.py] provisions a virtual environment, installs the
    requirements and launches the project's main file.  It is linear control
    flow around file-system checks and child processes, so the embedding is a
    state-and-exception monad over a [world] (a file system and the current
    directory) that also collects the events of the run in order.
    Everything the script takes from the Python runtime and the operating
    system (path arithmetic, the JSON codec, child processes, I/O failures)
    is a field of the class [Platform]; the script's own functions are
    translated line by line.

    Conventions of the model:
    - a Python [str] is a [string], its characters the 8-bit ones;
    - a value read from the configuration is a [pyval], so that a
      configuration that is not a record of strings raises what Python
      raises;
    - an operation on the file system or a child process is recorded as an
      event when it is attempted, before its outcome is known; entering one
      of the script's functions is recorded too ([EvCall]);
    - an uncaught exception ends the run ([Raise]); [sys.exit] ends it with a
      status ([Exit]) and is not caught by [except Exception];
    - [os.chdir(script_dir)] succeeds: the script lives in that directory. *)

From Stdlib Require Import ZArith Ascii Lia.
From stdpp Require Import base option list strings gmap.

Set Warnings "-register-all".

(** ** Python values *)

(** What [json.load] can produce.  Numbers are never computed with, they are
    kept as their literal. *)
Inductive pyval : Type :=
| PNone
| PBool (b : bool)
| PNum (lit : string)
| PStr (s : string)
| PList (items : list pyval)
| PDict (entries : list (string * pyval)).

(** The exceptions the script can meet.  All of them derive from Python's
    [Exception]; [sys.exit] is kept apart, as the [Exit] result below. *)
Inductive exn : Type :=
| OSError (reason : string) (path : string)
| CalledProcessError (cmd : list string) (code : Z)
| UnicodeDecodeError
| JSONDecodeError
| TypeError
| IndexError
| KeyError
| AttributeError.

(** ** The world *)

Inductive node : Type :=
| Dir
| File (content : string).

(** The functions of [setup.py]; entering one is recorded in the trace. *)
Inductive func : Type :=
| FLoadConfig
| FFindPythonExecutable
| FCreateVirtualenv
| FInstallRequirements
| FRunMainScript
| FCleanupTempFiles
| FMain.

Inductive event : Type :=
| EvCall (f : func)
| EvPrint (line : string)
| EvSpawn (argv : list string)
| EvWrite (path : string) (content : string)
| EvRmtree (path : string)
| EvRemove (path : string)
| EvChdir (path : string).

Record world : Type := World {
  fs : gmap string node;
  cwd : string
}.

Inductive io_op : Type := OpRead | OpWrite | OpRemove | OpRmtree.

(** How a child process ends: it could not be started, or it exited with a
    status; [output] is what it printed, decoded as text ([None] when
    [.decode()] raises on it). *)
Inductive proc_outcome : Type :=
| NotLaunched (reason : string)
| Exited (code : Z) (output : option string).

(** ** The platform

    What the script uses and does not define. *)
Class Platform : Type := {
  (** [os.path.dirname(os.path.abspath(__file__))] *)
  script_dir : string;
  (** [os.name] *)
  os_name : string;
  (** [sys.executable] *)
  sys_executable : string;
  (** [sys.version.split()[0]] *)
  sys_version_word : string;
  (** [os.path.join] with two arguments *)
  path_join : string -> string -> string;
  (** [os.path.basename] *)
  path_basename : string -> string;
  (** [inside d p]: the path [p] lies below the directory [d] *)
  inside : string -> string -> bool;
  (** [json.dump(v, f, indent=2)], the text written *)
  json_dump : pyval -> string;
  (** [json.load], [None] when the text is not a JSON document *)
  json_load : string -> option pyval;
  (** [str(v)] of a value that is not a string *)
  py_repr : pyval -> string;
  (** [str(e)] of an exception *)
  exn_str : exn -> string;
  (** running a command to completion: how it ends and what it leaves *)
  spawn : list string -> gmap string node -> proc_outcome * gmap string node;
  (** an operation the operating system refuses, with the reason *)
  io_error : io_op -> string -> gmap string node -> option string
}.

(** ** The monad of the script *)

Inductive result (A : Type) : Type :=
| Ok (a : A)
| Raise (e : exn)
| Exit (code : Z).
Arguments Ok {A} a.
Arguments Raise {A} e.
Arguments Exit {A} code.

(** A run from a world: how it ends, the world it leaves and the events it
    produced, oldest first. *)
Record outcome (A : Type) : Type := Outcome {
  res : result A;
  final : world;
  events : list event
}.
Arguments Outcome {A} res final events.
Arguments res {A} o.
Arguments final {A} o.
Arguments events {A} o.

Definition M (A : Type) : Type := world -> outcome A.

(** [after t o]: the run [o] preceded by the events [t]. *)
Definition after {A} (t : list event) (o : outcome A) : outcome A :=
  Outcome (res o) (final o) (t ++ events o).

Definition ret {A} (a : A) : M A := fun w => Outcome (Ok a) w [].

Definition bind {A B} (m : M A) (k : A -> M B) : M B :=
  fun w =>
    let o := m w in
    match res o with
    | Ok a => after (events o) (k a (final o))
    | Raise e => Outcome (Raise e) (final o) (events o)
    | Exit c => Outcome (Exit c) (final o) (events o)
    end.

Declare Scope script_scope.
Delimit Scope script_scope with script.
Bind Scope script_scope with M.
Notation "x ← y ; z" := (bind y (fun x => z))
  (at level 20, y at level 100, z at level 200, only parsing) : script_scope.
Notation "' x ← y ; z" := (bind y (fun x => z))
  (at level 20, x pattern, y at level 100, z at level 200, only parsing)
  : script_scope.
Notation "x ;; z" := (bind x (fun _ => z))
  (at level 100, z at level 200, only parsing, right associativity)
  : script_scope.
Open Scope script_scope.

Definition raise {A} (e : exn) : M A := fun w => Outcome (Raise e) w [].

(** [sys.exit(code)] *)
Definition sys_exit {A} (code : Z) : M A := fun w => Outcome (Exit code) w [].

(** [try: body  except Exception as e: handler e]; [SystemExit] is not an
    [Exception] and passes through. *)
Definition try_except {A} (body : M A) (handler : exn -> M A) : M A :=
  fun w =>
    let o := body w in
    match res o with
    | Raise e => after (events o) (handler e (final o))
    | _ => o
    end.

Definition emit (e : event) : M unit := fun w => Outcome (Ok tt) w [e].

Definition get_fs : M (gmap string node) := fun w => Outcome (Ok (fs w)) w [].

Definition put_fs (f : gmap string node) : M unit :=
  fun w => Outcome (Ok tt) (World f (cwd w)) [].

Definition print (line : string) : M unit := emit (EvPrint line).

Definition call (f : func) : M unit := emit (EvCall f).

(** The status the operating system sees: 0 after a normal return, 1 after an
    uncaught exception, the argument of [sys.exit] otherwise. *)
Definition exit_status {A} (r : result A) : Z :=
  match r with
  | Ok _ => 0
  | Raise _ => 1
  | Exit c => c
  end.

(** ** Strings the way Python's [str] treats them *)

(** [c.isspace()] for a character below 256. *)
Definition is_space (c : ascii) : bool :=
  let n := nat_of_ascii c in
  ((9 <=? n) && (n <=? 13)) || ((28 <=? n) && (n <=? 32))
  || (n =? 133) || (n =? 160).

Fixpoint lstrip (s : string) : string :=
  match s with
  | String c s' => if is_space c then lstrip s' else s
  | EmptyString => EmptyString
  end.

(** [s.strip()] *)
Definition strip (s : string) : string :=
  String.rev (lstrip (String.rev (lstrip s))).

(** [s.endswith(suffix)] for two strings. *)
Fixpoint endswith (s suffix : string) : bool :=
  if String.eqb s suffix then true
  else match s with
       | String _ s' => endswith s' suffix
       | EmptyString => false
       end.

(** [x in xs] for strings. *)
Definition str_in (x : string) (xs : list string) : bool :=
  existsb (String.eqb x) xs.

Definition dquote : string := String (ascii_of_nat 34) EmptyString.
Definition newline : string := String (ascii_of_nat 10) EmptyString.

(** ** Operations on Python values *)

(** [d.get(key)] on the entries of a dictionary: the first binding of the
    key (a dictionary built by [json.load] binds a key once). *)
Fixpoint dict_lookup (key : string) (entries : list (string * pyval))
  : option pyval :=
  match entries with
  | [] => None
  | (k, v) :: rest => if String.eqb k key then Some v else dict_lookup key rest
  end.

(** [v[0]] *)
Definition getitem0 (v : pyval) : M pyval :=
  match v with
  | PStr (String c _) => ret (PStr (String c EmptyString))
  | PStr EmptyString => raise IndexError
  | PList (x :: _) => ret x
  | PList [] => raise IndexError
  | PDict _ => raise KeyError
  | PNone | PBool _ | PNum _ => raise TypeError
  end.

(** [config.get(key, default)]; only a dictionary has the method. *)
Definition config_get (config : pyval) (key : string) (default : pyval)
  : M pyval :=
  match config with
  | PDict entries => ret (from_option id default (dict_lookup key entries))
  | _ => raise AttributeError
  end.

(** [output.endswith(version)]: the argument must be a string. *)
Definition endswith_py (s : string) (version : pyval) : M bool :=
  match version with
  | PStr v => ret (endswith s v)
  | _ => raise TypeError
  end.

(** [x or default] for an optional string: [None] and the empty string are
    false. *)
Definition py_or (x : option string) (default : string) : string :=
  match x with
  | Some s => if String.eqb s "" then default else s
  | None => default
  end.

(** A path names something in the file system. *)
Definition present (f : gmap string node) (path : string) : bool :=
  bool_decide (is_Some (f !! path)).

Section Script.

Context `{Platform}.

(** [sys.argv] *)
Variable sys_argv : list string.

(** The value inside an f-string. *)
Definition py_format (v : pyval) : string :=
  match v with
  | PStr s => s
  | _ => py_repr v
  end.

(** ** File system and process primitives *)

(** [os.path.exists(path)] *)
Definition path_exists (path : string) : M bool :=
  fun w => Outcome (Ok (present (fs w) path)) w [].

(** [with open(path, "w") as f: f.write(content)] *)
Definition write_file (path content : string) : M unit :=
  emit (EvWrite path content);;
  f ← get_fs;
  match io_error OpWrite path f with
  | Some why => raise (OSError why path)
  | None =>
      match f !! path with
      | Some Dir => raise (OSError "Is a directory" path)
      | _ => put_fs (<[path := File content]> f)
      end
  end.

(** [with open(path, "r") as f: f.read()] *)
Definition read_file (path : string) : M string :=
  f ← get_fs;
  match io_error OpRead path f with
  | Some why => raise (OSError why path)
  | None =>
      match f !! path with
      | Some (File content) => ret content
      | Some Dir => raise (OSError "Is a directory" path)
      | None => raise (OSError "No such file or directory" path)
      end
  end.

(** [os.remove(path)] *)
Definition os_remove (path : string) : M unit :=
  emit (EvRemove path);;
  f ← get_fs;
  match io_error OpRemove path f with
  | Some why => raise (OSError why path)
  | None =>
      match f !! path with
      | Some (File _) => put_fs (delete path f)
      | Some Dir => raise (OSError "Is a directory" path)
      | None => raise (OSError "No such file or directory" path)
      end
  end.

(** What [shutil.rmtree(path)] leaves: neither the directory nor anything
    below it. *)
Definition without_tree (path : string) (f : gmap string node)
  : gmap string node :=
  filter (fun kv => kv.1 ≠ path ∧ inside path kv.1 = false) f.

(** [shutil.rmtree(path)] *)
Definition rmtree (path : string) : M unit :=
  emit (EvRmtree path);;
  f ← get_fs;
  match io_error OpRmtree path f with
  | Some why => raise (OSError why path)
  | None =>
      match f !! path with
      | Some Dir => put_fs (without_tree path f)
      | Some (File _) => raise (OSError "Not a directory" path)
      | None => raise (OSError "No such file or directory" path)
      end
  end.

(** [os.chdir(path)] *)
Definition chdir (path : string) : M unit :=
  fun w => Outcome (Ok tt) (World (fs w) path) [EvChdir path].

(** Start the command, wait for it, keep what it did to the files. *)
Definition run_child (argv : list string) : M proc_outcome :=
  emit (EvSpawn argv);;
  f ← get_fs;
  let '(how, f') := spawn argv f in
  put_fs f';;
  ret how.

(** [subprocess.run(argv, check=True)] *)
Definition subprocess_run (argv : list string) : M unit :=
  how ← run_child argv;
  match how with
  | NotLaunched why => raise (OSError why (hd "" argv))
  | Exited code _ =>
      if (code =? 0)%Z then ret tt else raise (CalledProcessError argv code)
  end.

(** [subprocess.check_output(argv, stderr=subprocess.STDOUT).decode()] *)
Definition check_output_decode (argv : list string) : M string :=
  how ← run_child argv;
  match how with
  | NotLaunched why => raise (OSError why (hd "" argv))
  | Exited code output =>
      if (code =? 0)%Z then
        match output with
        | Some text => ret text
        | None => raise UnicodeDecodeError
        end
      else raise (CalledProcessError argv code)
  end.

(** ** The functions of setup.py *)

Definition default_config : pyval :=
  PDict [("project_name", PStr "UnnamedProject");
         ("main_file", PStr "main.py");
         ("requirements_file", PStr "requirements.txt");
         ("venv_dir", PStr "venv");
         ("python_version", PStr "3.12")].

Definition config_file : string := path_join script_dir "setup-config.json".

(** [load_config], lines 7-31. *)
Definition load_config : M (pyval * string) :=
  call FLoadConfig;;
  found ← path_exists config_file;
  (if negb found then
     print "Missing setup-config.json file. Creating default one...";;
     write_file config_file (json_dump default_config);;
     print "Created default setup-config.json."
   else ret tt);;
  text ← read_file config_file;
  config ← match json_load text with
           | Some v => ret v
           | None => raise JSONDecodeError
           end;
  ret (config, script_dir).

(** The body of the loop of [find_python_executable], lines 45-50: the
    command the [try] block returns, or nothing when the test fails or an
    exception sends the loop to the next candidate. *)
Definition try_candidate (version : pyval) (cmd : string) : M (option string) :=
  try_except
    (output ← check_output_decode [cmd; "--version"];
     matches ← endswith_py (strip output) version;
     ret (if matches then Some cmd else None))
    (fun _ => ret None).

(** The loop of [find_python_executable], lines 44-51. *)
Fixpoint probe_candidates (version : pyval) (candidates : list string)
  : M (option string) :=
  match candidates with
  | [] => ret None
  | cmd :: rest =>
      found ← try_candidate version cmd;
      match found with
      | Some c => ret (Some c)
      | None => probe_candidates version rest
      end
  end.

(** [find_python_executable], lines 33-51. *)
Definition find_python_executable (version : pyval) : M (option string) :=
  call FFindPythonExecutable;;
  first ← getitem0 version;
  let candidates :=
    ["python" +:+ py_format version; "python" +:+ py_format first; "python"] in
  probe_candidates version candidates.

(** [get_tool_path], lines 53-64. *)
Definition get_tool_path (venv_dir tool : string) : string :=
  path_join
    (path_join venv_dir (if String.eqb os_name "nt" then "Scripts" else "bin"))
    tool.

(** [create_virtualenv], lines 66-77. *)
Definition create_virtualenv (python_exe venv_dir : string) : M unit :=
  call FCreateVirtualenv;;
  print "Creating virtual environment...";;
  subprocess_run [python_exe; "-m"; "venv"; venv_dir];;
  print "Upgrading pip...";;
  subprocess_run
    [get_tool_path venv_dir "python"; "-m"; "pip"; "install"; "--upgrade"; "pip"].

(** [install_requirements], lines 79-92. *)
Definition install_requirements (venv_dir requirements_file : string)
  : M unit :=
  call FInstallRequirements;;
  found ← path_exists requirements_file;
  (if negb found then
     print "requirements.txt not found. Creating an empty one...";;
     write_file requirements_file ""
   else ret tt);;
  print "Installing requirements...";;
  subprocess_run
    [get_tool_path venv_dir "pip"; "install"; "-r"; requirements_file].

Definition mode_tokens : list string := ["install-only"; "run-only"; "full"].

Definition reserved_tokens : list string :=
  ["install-only"; "run-only"; "full"; "--clean"].

(** The arguments handed to the main script, line 108. *)
Definition forwarded_args : list string :=
  filter (fun arg => str_in arg reserved_tokens = false) (tail sys_argv).

(** [run_main_script], lines 94-109. *)
Definition run_main_script (venv_dir main_file : string) : M unit :=
  call FRunMainScript;;
  found ← path_exists main_file;
  (if negb found then
     print "Main script not found. Creating a default one...";;
     write_file main_file
       ("print(" +:+ dquote +:+ "Default " +:+ path_basename main_file
        +:+ " is running!" +:+ dquote +:+ ")" +:+ newline)
   else ret tt);;
  print ("Running " +:+ main_file +:+ "...");;
  subprocess_run ([get_tool_path venv_dir "python"; main_file] ++ forwarded_args).

Definition temp_file (dir : string) : string :=
  path_join dir "tempCodeRunnerFile.py".

(** [cleanup_temp_files], lines 111-124. *)
Definition cleanup_temp_files (dir : string) : M unit :=
  call FCleanupTempFiles;;
  found ← path_exists (temp_file dir);
  if found then
    try_except
      (os_remove (temp_file dir);;
       print "Removed tempCodeRunnerFile.py.")
      (fun e => print ("Failed to remove tempCodeRunnerFile.py: " +:+ exn_str e))
  else ret tt.

(** [os.path.join(script_dir, v)] for a value read from the configuration. *)
Definition join_script_dir (dir : string) (v : pyval) : M string :=
  match v with
  | PStr s => ret (path_join dir s)
  | _ => raise TypeError
  end.

(** What lines 130-144 of [main] compute. *)
Record settings : Type := Settings {
  dir : string;
  main_file : string;
  requirements_file : string;
  venv_dir : string;
  selected_python : string
}.

(** [main], lines 137-144: the interpreter found, or the running one with
    a warning.  [if not selected_python] is false for [None] and for the
    empty string. *)
Definition select_python (python_version : pyval) : M string :=
  let python_exe := sys_executable in
  found ← find_python_executable python_version;
  let fallback :=
    print ("Warning: Could not find python" +:+ py_format python_version
           +:+ ". Using current Python: " +:+ sys_version_word);;
    ret python_exe in
  match found with
  | Some cmd =>
      if String.eqb cmd "" then fallback
      else
        print ("Found Python " +:+ py_format python_version +:+ ": " +:+ cmd);;
        ret cmd
  | None => fallback
  end.

(** [main], lines 130-144: the configuration, the paths, the interpreter. *)
Definition main_resolve : M settings :=
  '(config, sdir) ← load_config;
  chdir sdir;;
  v ← config_get config "main_file" (PStr "main.py");
  main_file ← join_script_dir sdir v;
  v ← config_get config "requirements_file" (PStr "requirements.txt");
  requirements_file ← join_script_dir sdir v;
  v ← config_get config "venv_dir" (PStr "venv");
  venv_dir ← join_script_dir sdir v;
  python_version ← config_get config "python_version" (PStr "3.12");
  selected ← select_python python_version;
  ret (Settings sdir main_file requirements_file venv_dir selected).

(** The loop of lines 150-154. *)
Fixpoint parse_args (args : list string) (mode : option string)
  (clean_requested : bool) : option string * bool :=
  match args with
  | [] => (mode, clean_requested)
  | arg :: rest =>
      if str_in arg mode_tokens then parse_args rest (Some arg) clean_requested
      else if String.eqb arg "--clean" then parse_args rest mode true
      else parse_args rest mode clean_requested
  end.

(** Lines 146-156: the mode and the flag of the command line. *)
Definition selected_mode : string :=
  py_or (parse_args (tail sys_argv) None false).1 "full".

Definition clean_requested : bool :=
  (parse_args (tail sys_argv) None false).2.

(** Lines 158-160. *)
Definition clean_step (s : settings) : M unit :=
  found ← (if clean_requested then path_exists (venv_dir s) else ret false);
  if found then
    print "Removing existing virtual environment...";;
    rmtree (venv_dir s)
  else ret tt.

(** Lines 162-179. *)
Definition mode_dispatch (s : settings) : M unit :=
  let mode := selected_mode in
  if String.eqb mode "install-only" then
    found ← path_exists (venv_dir s);
    (if negb found then create_virtualenv (selected_python s) (venv_dir s)
     else ret tt);;
    install_requirements (venv_dir s) (requirements_file s)
  else if String.eqb mode "run-only" then
    found ← path_exists (venv_dir s);
    (if negb found then
       print "Virtual environment not found. Run with: python setup.py install-only or full";;
       sys_exit 1
     else ret tt);;
    run_main_script (venv_dir s) (main_file s)
  else if String.eqb mode "full" then
    found ← path_exists (venv_dir s);
    (if negb found then create_virtualenv (selected_python s) (venv_dir s)
     else ret tt);;
    install_requirements (venv_dir s) (requirements_file s);;
    run_main_script (venv_dir s) (main_file s)
  else
    print ("Unknown mode: " +:+ mode);;
    print "Usage: python setup.py [install-only|run-only|full] [--clean]";;
    sys_exit 1.

(** [main], lines 146-181, once the settings are known. *)
Definition main_run (s : settings) : M unit :=
  clean_step s;;
  mode_dispatch s;;
  cleanup_temp_files (dir s).

(** [main], lines 126-181. *)
Definition main : M unit :=
  call FMain;;
  s ← main_resolve;
  main_run s.

(** The module run as a program, lines 183-186. *)
Definition program : M unit :=
  '(config, _) ← load_config;
  name ← config_get config "project_name" (PStr "Unnamed");
  print ("Starting setup for project: " +:+ py_format name);;
  main.

(** The program up to the mode logic: lines 184-185, then lines 130-144 of
    [main]. *)
Definition program_resolve : M settings :=
  '(config, _) ← load_config;
  name ← config_get config "project_name" (PStr "Unnamed");
  print ("Starting setup for project: " +:+ py_format name);;
  call FMain;;
  main_resolve.

End Script.

(** ** A POSIX machine

    One platform to run the script on: POSIX paths, a JSON codec for flat
    records of strings (what the configuration file is), a table of the
    interpreters installed with what each prints for [--version], and a table
    of the operations the system refuses. *)
Module Posix.

Definition slash : ascii := ascii_of_nat 47.

Definition starts_with_slash (s : string) : bool :=
  match s with
  | String c _ => Ascii.eqb c slash
  | EmptyString => false
  end.

(** [posixpath.join(a, b)] *)
Definition join (a b : string) : string :=
  if starts_with_slash b then b
  else if String.eqb a "" || endswith a "/" then a +:+ b
  else a +:+ "/" +:+ b.

Fixpoint basename_from (acc p : string) : string :=
  match p with
  | EmptyString => acc
  | String c rest =>
      if Ascii.eqb c slash then basename_from "" rest
      else basename_from (acc +:+ String c EmptyString) rest
  end.

(** [posixpath.basename(p)] *)
Definition basename (p : string) : string := basename_from "" p.

Definition below (d p : string) : bool := String.prefix (d +:+ "/") p.

Definition quote_char : ascii := ascii_of_nat 34.

Definition quoted (s : string) : string := dquote +:+ s +:+ dquote.

Fixpoint dump_members (entries : list (string * pyval)) : option string :=
  match entries with
  | [] => Some ""
  | (k, PStr v) :: rest =>
      match dump_members rest with
      | Some text =>
          Some ("  " +:+ quoted k +:+ ": " +:+ quoted v
                +:+ (if rest is [] then "" else ",") +:+ newline +:+ text)
      | None => None
      end
  | _ => None
  end.

(** [json.dump(v, f, indent=2)] of a flat record of strings; any other value
    is written as [null]. *)
Definition dump (v : pyval) : string :=
  match v with
  | PDict [] => "{}"
  | PDict entries =>
      match dump_members entries with
      | Some text => "{" +:+ newline +:+ text +:+ "}"
      | None => "null"
      end
  | _ => "null"
  end.

(** The text up to the closing quote, and what follows it. *)
Fixpoint read_quoted (s : string) : option (string * string) :=
  match s with
  | EmptyString => None
  | String c rest =>
      if Ascii.eqb c quote_char then Some ("", rest)
      else match read_quoted rest with
           | Some (body, after_it) => Some (String c body, after_it)
           | None => None
           end
  end.

Definition read_string (s : string) : option (string * string) :=
  match lstrip s with
  | String c rest => if Ascii.eqb c quote_char then read_quoted rest else None
  | EmptyString => None
  end.

Definition expect (c : ascii) (s : string) : option string :=
  match lstrip s with
  | String c' rest => if Ascii.eqb c c' then Some rest else None
  | EmptyString => None
  end.

Fixpoint read_members (fuel : nat) (s : string)
  : option (list (string * pyval)) :=
  match fuel with
  | O => None
  | S fuel' =>
      '(k, s1) ← read_string s;
      s2 ← expect ":" s1;
      '(v, s3) ← read_string s2;
      match expect "," s3 with
      | Some s4 => cons (k, PStr v) <$> read_members fuel' s4
      | None =>
          s4 ← expect "}" s3;
          if String.eqb (lstrip s4) "" then Some [(k, PStr v)] else None
      end
  end%stdpp.

(** [json.load] of a flat record of strings. *)
Definition load (text : string) : option pyval :=
  match expect "{" text with
  | Some rest =>
      match expect "}" rest with
      | Some tail_text =>
          if String.eqb (lstrip tail_text) "" then Some (PDict []) else None
      | None => PDict <$> read_members (String.length text) rest
      end
  | None => None
  end.

Definition repr (v : pyval) : string :=
  match v with
  | PNone => "None"
  | PBool true => "True"
  | PBool false => "False"
  | PNum lit => lit
  | PStr s => s
  | PList _ => "[...]"
  | PDict _ => "{...}"
  end.

Definition describe (e : exn) : string :=
  match e with
  | OSError why path => why +:+ ": " +:+ path
  | CalledProcessError _ _ => "Command returned non-zero exit status"
  | UnicodeDecodeError => "invalid start byte"
  | JSONDecodeError => "Expecting value"
  | TypeError => "TypeError"
  | IndexError => "string index out of range"
  | KeyError => "0"
  | AttributeError => "object has no attribute 'get'"
  end.

Fixpoint version_of (cmd : string) (installed : list (string * string))
  : option string :=
  match installed with
  | [] => None
  | (name, banner) :: rest =>
      if String.eqb name cmd then Some banner else version_of cmd rest
  end.

(** The commands of the machine: an installed interpreter prints its banner
    for [--version]; [-m venv d] makes the directory [d]; everything else
    succeeds and leaves the files alone. *)
Definition commands (installed : list (string * string)) (argv : list string)
  (f : gmap string node) : proc_outcome * gmap string node :=
  match argv with
  | [cmd; flag] =>
      if String.eqb flag "--version" then
        match version_of cmd installed with
        | Some banner => (Exited 0 (Some banner), f)
        | None => (NotLaunched "No such file or directory", f)
        end
      else (Exited 0 (Some ""), f)
  | [_; m; tool; d] =>
      if String.eqb m "-m" && String.eqb tool "venv"
      then (Exited 0 (Some ""), <[d := Dir]> f)
      else (Exited 0 (Some ""), f)
  | _ => (Exited 0 (Some ""), f)
  end.

Definition io_op_eqb (a b : io_op) : bool :=
  match a, b with
  | OpRead, OpRead | OpWrite, OpWrite | OpRemove, OpRemove
  | OpRmtree, OpRmtree => true
  | _, _ => false
  end.

(** The operations refused, each with "Permission denied". *)
Definition refusals (denied : list (io_op * string)) (op : io_op)
  (path : string) (_ : gmap string node) : option string :=
  if existsb (fun d => io_op_eqb d.1 op && String.eqb d.2 path) denied
  then Some "Permission denied" else None.

Definition machine (installed : list (string * string))
  (denied : list (io_op * string)) : Platform := {|
  script_dir := "/proj";
  os_name := "posix";
  sys_executable := "/usr/bin/python3";
  sys_version_word := "3.11.4";
  path_join := join;
  path_basename := basename;
  inside := below;
  json_dump := dump;
  json_load := load;
  py_repr := repr;
  exn_str := describe;
  spawn := commands installed;
  io_error := refusals denied
|}.

(** Nothing on disk, started from the project directory. *)
Definition empty_world : world := World ∅ "/proj".

End Posix.

(** ** Observations on a run *)

(** The four side effects the mode logic chooses between. *)
Inductive effect : Type := Remove | Create | Install | Run.

Definition effect_of (e : event) : option effect :=
  match e with
  | EvRmtree _ => Some Remove
  | EvCall FCreateVirtualenv => Some Create
  | EvCall FInstallRequirements => Some Install
  | EvCall FRunMainScript => Some Run
  | _ => None
  end.

Definition effects (t : list event) : list effect := omap effect_of t.

(** The changes to the file system the script itself attempts: writing a
    file, removing a tree, removing a file. *)
Definition write_of (e : event) : option event :=
  match e with
  | EvWrite _ _ | EvRmtree _ | EvRemove _ => Some e
  | _ => None
  end.

Definition writes (t : list event) : list event := omap write_of t.

(** The commands started. *)
Definition spawn_of (e : event) : option (list string) :=
  match e with
  | EvSpawn argv => Some argv
  | _ => None
  end.

Definition spawned (t : list event) : list (list string) := omap spawn_of t.

(** The lines printed. *)
Definition print_of (e : event) : option string :=
  match e with
  | EvPrint line => Some line
  | _ => None
  end.

Definition printed (t : list event) : list string := omap print_of t.

(** ** The vocabulary of the statements *)

(** The value a configuration record gives a field. *)
Definition field (config : pyval) (key : string) : option pyval :=
  match config with
  | PDict entries => dict_lookup key entries
  | _ => None
  end.

(** The desired version's first character, what [version[0]] is. *)
Definition major (version : string) : string :=
  match version with
  | String c _ => String c EmptyString
  | EmptyString => EmptyString
  end.

(** The candidates in the order of the specification. *)
Definition candidates_of (version : string) : list string :=
  ["python" +:+ version; "python" +:+ major version; "python"].

(** A candidate is accepted when its [--version] run exits normally with an
    output that, stripped, ends with the desired version. *)
Definition accepts (version : string) (how : proc_outcome) : bool :=
  match how with
  | Exited code (Some output) =>
      (code =? 0)%Z && endswith (strip output) version
  | _ => false
  end.

(** The first accepted candidate, each one probed on the files the probes
    before it left; with it, the files after the last probe. *)
Fixpoint first_accepted `{Platform} (version : string)
  (candidates : list string) (f : gmap string node)
  : option string * gmap string node :=
  match candidates with
  | [] => (None, f)
  | cmd :: rest =>
      let '(how, f') := spawn [cmd; "--version"] f in
      if accepts version how then (Some cmd, f')
      else first_accepted version rest f'
  end.

(** The command that probes a candidate. *)
Definition probe (cmd : string) : list string := [cmd; "--version"].

(** What [run-only] prints when there is no environment, line 168. *)
Definition not_found_message : string :=
  "Virtual environment not found. Run with: python setup.py install-only or full".

(** Lines 163-164 and 172-173: the environment is created only when its
    directory is missing. *)
Definition ensure_env `{Platform} (s : settings) : M unit :=
  found ← path_exists (venv_dir s);
  if negb found then create_virtualenv (selected_python s) (venv_dir s)
  else ret tt.

(** What the dispatch does, by mode, given whether the environment directory
    is there when the dispatch starts. *)
Definition dispatch_effects (mode : string) (found : bool) : list effect :=
  if String.eqb mode "install-only" then
    (if found then [] else [Create]) ++ [Install]
  else if String.eqb mode "run-only" then
    (if found then [Run] else [])
  else
    (if found then [] else [Create]) ++ [Install; Run].

(** The side effects of a run, by mode and flag, given whether the
    environment directory is there when the mode logic starts: [--clean]
    removes a directory that is there, and the mode then finds none. *)
Definition documented (mode : string) (clean found : bool) : list effect :=
  (if clean && found then [Remove] else [])
  ++ dispatch_effects mode (found && negb clean).

(** An event other than the call of [cleanup_temp_files]. *)
Definition not_cleanup (e : event) : Prop := e ≠ EvCall FCleanupTempFiles.

(** The claim as the specification states it: in [run-only] mode with no
    environment directory the program ends with status 1 and has written
    nothing and performed no side effect. *)
Definition run_only_without_env_writes_nothing `{Platform}
  (argv : list string) (w : world) : Prop :=
  selected_mode argv = "run-only" →
  (∀ s, res (program_resolve w) = Ok s →
        present (fs (final (program_resolve w))) (venv_dir s) = false) →
  let o := program argv w in
  exit_status (res o) = 1%Z
  ∧ writes (events o) = []
  ∧ effects (events o) = [].

(** What the clean step prints, line 159. *)
Definition removing_message : string :=
  "Removing existing virtual environment...".

(** The path a configuration gives for [key]: the entry of the record, or
    [default] when the key is missing, joined to the script's directory;
    nothing when the entry is not a string. *)
Definition config_path `{Platform} (entries : list (string * pyval))
  (key default : string) : option string :=
  match from_option id (PStr default) (dict_lookup key entries) with
  | PStr p => Some (path_join script_dir p)
  | _ => None
  end.

(** The text [run_main_script] writes for a missing main file, line 105. *)
Definition placeholder `{Platform} (main_file : string) : string :=
  "print(" +:+ dquote +:+ "Default " +:+ path_basename main_file
  +:+ " is running!" +:+ dquote +:+ ")" +:+ newline.

(** The command that creates the environment, line 75. *)
Definition venv_command (python_exe venv_dir : string) : list string :=
  [python_exe; "-m"; "venv"; venv_dir].

(** The command that upgrades pip inside the environment, line 77. *)
Definition pip_upgrade_command `{Platform} (venv_dir : string) : list string :=
  [get_tool_path venv_dir "python"; "-m"; "pip"; "install"; "--upgrade"; "pip"].

(** The command that installs the requirements, line 92. *)
Definition pip_install_command `{Platform} (venv_dir requirements_file : string)
  : list string :=
  [get_tool_path venv_dir "pip"; "install"; "-r"; requirements_file].

(** The command that runs the main script, line 109. *)
Definition script_command `{Platform} (argv : list string)
  (venv_dir main_file : string) : list string :=
  [get_tool_path venv_dir "python"; main_file] ++ forwarded_args argv.

(** A command that ran and exited with a status other than 0. *)
Definition exits_with `{Platform} (argv : list string) (w : world) (code : Z)
  : Prop :=
  ∃ output, (spawn argv (fs w)).1 = Exited code output ∧ code ≠ 0%Z.

(** A command that ran and exited with status 0. *)
Definition succeeds `{Platform} (argv : list string) (w : world) : Prop :=
  ∃ output, (spawn argv (fs w)).1 = Exited 0 output.

(** The world a command leaves. *)
Definition after_command `{Platform} (argv : list string) (w : world) : world :=
  World (spawn argv (fs w)).2 (cwd w).

(** The POSIX machine with no interpreter installed, its JSON reader
    replaced by one that reads every text as [document]: a stand-in for
    configuration files the small reader above does not cover. *)
Definition machine_reading (document : pyval) : Platform := {|
  script_dir := "/proj";
  os_name := "posix";
  sys_executable := "/usr/bin/python3";
  sys_version_word := "3.11.4";
  path_join := Posix.join;
  path_basename := Posix.basename;
  inside := Posix.below;
  json_dump := Posix.dump;
  json_load := fun _ => Some document;
  py_repr := Posix.repr;
  exn_str := Posix.describe;
  spawn := Posix.commands [];
  io_error := Posix.refusals []
|}.

(** The changes [main] can attempt on the file system once the settings are
    known, in the order it would attempt them. *)
Definition touched `{Platform} (s : settings) : list event :=
  [EvRmtree (venv_dir s);
   EvWrite (requirements_file s) "";
   EvWrite (main_file s) (placeholder (main_file s));
   EvRemove (temp_file (dir s))].

(** A run that does not end in [sys.exit]. *)
Definition no_exit {A} (o : outcome A) : Prop := ∀ code, res o ≠ Exit code.

(** * Properties *)

Section Monad_laws.

Context {A B : Type}.

Lemma res_bind (m : M A) (k : A -> M B) w :
  res (bind m k w) =
  match res (m w) with
  | Ok a => res (k a (final (m w)))
  | Raise e => Raise e
  | Exit c => Exit c
  end.
Proof. unfold bind. by destruct (res (m w)). Qed.

Lemma final_bind (m : M A) (k : A -> M B) w :
  final (bind m k w) =
  match res (m w) with
  | Ok a => final (k a (final (m w)))
  | _ => final (m w)
  end.
Proof. unfold bind. by destruct (res (m w)). Qed.

Lemma events_bind (m : M A) (k : A -> M B) w :
  events (bind m k w) =
  events (m w) ++
  match res (m w) with
  | Ok a => events (k a (final (m w)))
  | _ => []
  end.
Proof. unfold bind. destruct (res (m w)); simpl; by rewrite ?app_nil_r. Qed.

Lemma res_try_except (body : M A) (handler : exn -> M A) w :
  res (try_except body handler w) =
  match res (body w) with
  | Raise e => res (handler e (final (body w)))
  | r => r
  end.
Proof. unfold try_except. by destruct (res (body w)) eqn:E. Qed.

Lemma final_try_except (body : M A) (handler : exn -> M A) w :
  final (try_except body handler w) =
  match res (body w) with
  | Raise e => final (handler e (final (body w)))
  | _ => final (body w)
  end.
Proof. unfold try_except. by destruct (res (body w)). Qed.

Lemma events_try_except (body : M A) (handler : exn -> M A) w :
  events (try_except body handler w) =
  events (body w) ++
  match res (body w) with
  | Raise e => events (handler e (final (body w)))
  | _ => []
  end.
Proof. unfold try_except. destruct (res (body w)); simpl; by rewrite ?app_nil_r. Qed.

Lemma res_ret (a : A) w : res (ret a w) = Ok a.
Proof. done. Qed.
Lemma final_ret (a : A) w : final (ret a w) = w.
Proof. done. Qed.
Lemma events_ret (a : A) w : events (ret a w) = [].
Proof. done. Qed.

Lemma res_raise e w : res (raise (A := A) e w) = Raise e.
Proof. done. Qed.
Lemma final_raise e w : final (raise (A := A) e w) = w.
Proof. done. Qed.
Lemma events_raise e w : events (raise (A := A) e w) = [].
Proof. done. Qed.

Lemma res_sys_exit c w : res (sys_exit (A := A) c w) = Exit c.
Proof. done. Qed.
Lemma final_sys_exit c w : final (sys_exit (A := A) c w) = w.
Proof. done. Qed.
Lemma events_sys_exit c w : events (sys_exit (A := A) c w) = [].
Proof. done. Qed.

(** One step of a sequence, once the run of its head is known. *)
Lemma bind_outcome (m : M A) (k : A -> M B) w r w' t :
  m w = Outcome r w' t →
  bind m k w =
  match r with
  | Ok a => after t (k a w')
  | Raise e => Outcome (Raise e) w' t
  | Exit c => Outcome (Exit c) w' t
  end.
Proof. intros Hm. unfold bind. rewrite Hm. by destruct r. Qed.

Lemma after_outcome t (r : result A) w t' :
  after t (Outcome r w t') = Outcome r w (t ++ t').
Proof. done. Qed.

Lemma after_after t t' (o : outcome A) :
  after t (after t' o) = after (t ++ t') o.
Proof. unfold after. cbn. by rewrite app_assoc. Qed.

Lemma after_nil (o : outcome A) : after [] o = o.
Proof. by destruct o. Qed.

End Monad_laws.

Lemma bind_assoc {A B C} (m : M A) (k : A -> M B) (h : B -> M C) w :
  bind (bind m k) h w = bind m (fun a => bind (k a) h) w.
Proof.
  unfold bind. destruct (m w) as [[a| |] w1 t1]; cbn; try done.
  destruct (k a w1) as [[b| |] w2 t2]; cbn; try done.
  destruct (h b w2) as [r w3 t3]. unfold after. cbn. by rewrite app_assoc.
Qed.

Lemma res_emit e w : res (emit e w) = Ok tt.
Proof. done. Qed.
Lemma final_emit e w : final (emit e w) = w.
Proof. done. Qed.
Lemma events_emit e w : events (emit e w) = [e].
Proof. done. Qed.

Lemma res_get_fs w : res (get_fs w) = Ok (fs w).
Proof. done. Qed.
Lemma final_get_fs w : final (get_fs w) = w.
Proof. done. Qed.
Lemma events_get_fs w : events (get_fs w) = [].
Proof. done. Qed.

Lemma res_put_fs f w : res (put_fs f w) = Ok tt.
Proof. done. Qed.
Lemma final_put_fs f w : final (put_fs f w) = World f (cwd w).
Proof. done. Qed.
Lemma events_put_fs f w : events (put_fs f w) = [].
Proof. done. Qed.

Lemma res_path_exists p w : res (path_exists p w) = Ok (present (fs w) p).
Proof. done. Qed.
Lemma final_path_exists p w : final (path_exists p w) = w.
Proof. done. Qed.
Lemma events_path_exists p w : events (path_exists p w) = [].
Proof. done. Qed.

Lemma res_chdir p w : res (chdir p w) = Ok tt.
Proof. done. Qed.
Lemma final_chdir p w : final (chdir p w) = World (fs w) p.
Proof. done. Qed.
Lemma events_chdir p w : events (chdir p w) = [EvChdir p].
Proof. done. Qed.

Create Rewrite HintDb script.
#[global] Hint Rewrite @res_bind @final_bind @events_bind
  @res_try_except @final_try_except @events_try_except
  @res_ret @final_ret @events_ret @res_raise @final_raise @events_raise
  @res_sys_exit @final_sys_exit @events_sys_exit
  res_emit final_emit events_emit res_get_fs final_get_fs events_get_fs
  res_put_fs final_put_fs events_put_fs
  res_path_exists final_path_exists events_path_exists
  res_chdir final_chdir events_chdir : script.

Lemma res_after {A} t (o : outcome A) : res (after t o) = res o.
Proof. done. Qed.
Lemma final_after {A} t (o : outcome A) : final (after t o) = final o.
Proof. done. Qed.
Lemma events_after {A} t (o : outcome A) : events (after t o) = t ++ events o.
Proof. done. Qed.

#[global] Hint Rewrite @res_after @final_after @events_after : script.

Lemma effects_nil : effects [] = [].
Proof. done. Qed.
Lemma effects_cons e t :
  effects (e :: t) = option_list (effect_of e) ++ effects t.
Proof. unfold effects. simpl. by destruct (effect_of e). Qed.
Lemma effects_app t1 t2 : effects (t1 ++ t2) = effects t1 ++ effects t2.
Proof. apply omap_app. Qed.

Lemma writes_nil : writes [] = [].
Proof. done. Qed.
Lemma writes_cons e t : writes (e :: t) = option_list (write_of e) ++ writes t.
Proof. unfold writes. simpl. by destruct (write_of e). Qed.
Lemma writes_app t1 t2 : writes (t1 ++ t2) = writes t1 ++ writes t2.
Proof. apply omap_app. Qed.

Lemma spawned_nil : spawned [] = [].
Proof. done. Qed.
Lemma spawned_cons e t :
  spawned (e :: t) = option_list (spawn_of e) ++ spawned t.
Proof. unfold spawned. simpl. by destruct (spawn_of e). Qed.
Lemma spawned_app t1 t2 : spawned (t1 ++ t2) = spawned t1 ++ spawned t2.
Proof. apply omap_app. Qed.

Lemma printed_nil : printed [] = [].
Proof. done. Qed.
Lemma printed_cons e t :
  printed (e :: t) = option_list (print_of e) ++ printed t.
Proof. unfold printed. simpl. by destruct (print_of e). Qed.
Lemma printed_app t1 t2 : printed (t1 ++ t2) = printed t1 ++ printed t2.
Proof. apply omap_app. Qed.

#[global] Hint Rewrite effects_nil effects_cons effects_app
  writes_nil writes_cons writes_app spawned_nil spawned_cons spawned_app
  printed_nil printed_cons printed_app @app_nil_r : script.

Ltac norm :=
  repeat (progress
    (unfold call, print in *;
     autorewrite with script in *;
     cbn [app option_list effect_of write_of spawn_of print_of negb fst snd
          fs cwd res final events] in *)).

Ltac exec := norm; repeat (case_match; simplify_eq; norm; try done).

(** Running a sequence one step at a time, from the outside: a sequence
    whose head is a basic operation is replaced by its continuation. *)
Section Steps.

Context {B : Type}.

Lemma bind_emit e (k : unit -> M B) w : bind (emit e) k w = after [e] (k tt w).
Proof. done. Qed.

Lemma bind_ret {A} (a : A) (k : A -> M B) w : bind (ret a) k w = k a w.
Proof. unfold bind. cbn. apply after_nil. Qed.

Lemma bind_raise {A} e (k : A -> M B) w :
  bind (raise e) k w = Outcome (Raise e) w [].
Proof. done. Qed.

Lemma bind_sys_exit {A} c (k : A -> M B) w :
  bind (sys_exit c) k w = Outcome (Exit c) w [].
Proof. done. Qed.

Lemma bind_path_exists p (k : bool -> M B) w :
  bind (path_exists p) k w = k (present (fs w) p) w.
Proof. unfold bind. cbn. apply after_nil. Qed.

Lemma bind_get_fs (k : gmap string node -> M B) w :
  bind get_fs k w = k (fs w) w.
Proof. unfold bind. cbn. apply after_nil. Qed.

Lemma bind_put_fs f (k : unit -> M B) w :
  bind (put_fs f) k w = k tt (World f (cwd w)).
Proof. unfold bind. cbn. apply after_nil. Qed.

Lemma bind_chdir p (k : unit -> M B) w :
  bind (chdir p) k w = after [EvChdir p] (k tt (World (fs w) p)).
Proof. done. Qed.

End Steps.

Lemma emit_run e w : emit e w = Outcome (Ok tt) w [e].
Proof. done. Qed.
Lemma ret_run {A} (a : A) w : ret a w = Outcome (Ok a) w [].
Proof. done. Qed.
Lemma raise_run {A} e w : raise (A := A) e w = Outcome (Raise e) w [].
Proof. done. Qed.
Lemma sys_exit_run {A} c w : sys_exit (A := A) c w = Outcome (Exit c) w [].
Proof. done. Qed.
Lemma put_fs_run f w : put_fs f w = Outcome (Ok tt) (World f (cwd w)) [].
Proof. done. Qed.

Create Rewrite HintDb step.
#[global] Hint Rewrite @bind_assoc @bind_emit @bind_ret @bind_raise
  @bind_sys_exit @bind_path_exists @bind_get_fs @bind_put_fs @bind_chdir
  emit_run @ret_run @raise_run @sys_exit_run put_fs_run
  @after_outcome @after_after @after_nil : step.

Ltac steps :=
  unfold call, print;
  repeat (progress
    (autorewrite with step;
     cbn [app negb fs cwd res final events])).

(** A step whose head is run by the equation that [tac] proves. *)
Tactic Notation "step" "by" tactic3(tac) :=
  erewrite bind_outcome by tac; steps.

(** ** The primitives: what each one records *)

Lemma events_write_file `{Platform} p c w :
  events (write_file p c w) = [EvWrite p c].
Proof. unfold write_file. exec. Qed.

Lemma events_read_file `{Platform} p w : events (read_file p w) = [].
Proof. unfold read_file. exec. Qed.

Lemma events_os_remove `{Platform} p w : events (os_remove p w) = [EvRemove p].
Proof. unfold os_remove. exec. Qed.

Lemma events_rmtree `{Platform} p w : events (rmtree p w) = [EvRmtree p].
Proof. unfold rmtree. exec. Qed.

Lemma events_run_child `{Platform} argv w :
  events (run_child argv w) = [EvSpawn argv].
Proof. unfold run_child. exec. Qed.

#[global] Hint Rewrite @events_write_file @events_read_file @events_os_remove
  @events_rmtree @events_run_child : script.

Lemma events_subprocess_run `{Platform} argv w :
  events (subprocess_run argv w) = [EvSpawn argv].
Proof. unfold subprocess_run. exec. Qed.

Lemma events_check_output_decode `{Platform} argv w :
  events (check_output_decode argv w) = [EvSpawn argv].
Proof. unfold check_output_decode. exec. Qed.

#[global] Hint Rewrite @events_subprocess_run @events_check_output_decode
  : script.

(** ** The four side effects of the script's functions *)

Lemma effects_create_virtualenv `{Platform} py venv w :
  effects (events (create_virtualenv py venv w)) = [Create].
Proof. unfold create_virtualenv. exec. Qed.

Lemma effects_install_requirements `{Platform} venv req w :
  effects (events (install_requirements venv req w)) = [Install].
Proof. unfold install_requirements. exec. Qed.

Lemma effects_run_main_script `{Platform} argv venv mf w :
  effects (events (run_main_script argv venv mf w)) = [Run].
Proof. unfold run_main_script. exec. Qed.

Lemma effects_cleanup_temp_files `{Platform} d w :
  effects (events (cleanup_temp_files d w)) = [].
Proof. unfold cleanup_temp_files. exec. Qed.

#[global] Hint Rewrite @effects_create_virtualenv @effects_install_requirements
  @effects_run_main_script @effects_cleanup_temp_files : script.

(** ** Strings *)

Lemma endswith_refl s : endswith s s = true.
Proof. destruct s; cbn [endswith]; by rewrite String.eqb_refl. Qed.

(** [endswith] is the suffix test. *)
Lemma endswith_spec s v : endswith s v = true ↔ ∃ p, s = p +:+ v.
Proof.
  split.
  - induction s as [|c s IH]; cbn [endswith].
    + destruct (String.eqb_spec "" v) as [<-|]; [by exists ""|done].
    + destruct (String.eqb_spec (String c s) v) as [<-|_]; [by exists ""|].
      intros [p ->]%IH. by exists (String c p).
  - intros [p ->]. induction p as [|c p IH]; [apply endswith_refl|].
    change (String c p +:+ v) with (String c (p +:+ v)).
    cbn [endswith]. rewrite IH. by destruct (String.eqb _ _).
Qed.

Lemma str_in_spec x xs : str_in x xs = true ↔ x ∈ xs.
Proof.
  unfold str_in. rewrite existsb_exists. split.
  - intros (y & Hy & ->%String.eqb_eq). by apply list_elem_of_In.
  - intros Hx. exists x. split; [by apply list_elem_of_In|apply String.eqb_refl].
Qed.

(** ** The command line *)

Lemma parse_args_mode args mode clean :
  (parse_args args mode clean).1 =
  match last (filter (fun a => str_in a mode_tokens = true) args) with
  | Some m => Some m
  | None => mode
  end.
Proof.
  revert mode clean. induction args as [|a args IH]; intros mode clean; [done|].
  cbn [parse_args]. rewrite filter_cons.
  destruct (str_in a mode_tokens) eqn:Ha.
  - rewrite decide_True by done. rewrite last_cons, IH.
    by destruct (last _).
  - rewrite decide_False by done.
    destruct (String.eqb a "--clean"); apply IH.
Qed.

Lemma parse_args_clean args mode clean :
  (parse_args args mode clean).2 = clean || bool_decide ("--clean" ∈ args).
Proof.
  revert mode clean. induction args as [|a args IH]; intros mode clean.
  - simpl. by rewrite orb_false_r.
  - cbn [parse_args].
    destruct (str_in a mode_tokens) eqn:Ha.
    + rewrite IH. f_equal. apply bool_decide_ext. rewrite elem_of_cons.
      split; [tauto|]. intros [<-|]; [|done]. by vm_compute in Ha.
    + destruct (String.eqb_spec a "--clean") as [->|Hne]; rewrite IH.
      * rewrite orb_true_l. symmetry. rewrite orb_true_iff. right.
        apply bool_decide_eq_true. by left.
      * f_equal. apply bool_decide_ext. rewrite elem_of_cons.
        split; [tauto|]. by intros [<-|].
Qed.

Lemma clean_requested_spec argv :
  clean_requested argv = bool_decide ("--clean" ∈ tail argv).
Proof. unfold clean_requested. by rewrite parse_args_clean. Qed.

Lemma mode_token_cases m :
  str_in m mode_tokens = true → m = "install-only" ∨ m = "run-only" ∨ m = "full".
Proof.
  rewrite str_in_spec. unfold mode_tokens. rewrite !elem_of_cons, elem_of_nil.
  tauto.
Qed.

(** C6: the mode is the last mode token of the command line, [full] when
    there is none; it is always one of the three modes, so the fourth branch
    of the dispatch is never taken. *)
Theorem selected_mode_last_wins (argv : list string) :
  selected_mode argv =
    default "full"
      (last (filter (fun a => str_in a mode_tokens = true) (tail argv)))
  ∧ selected_mode argv ∈ mode_tokens.
Proof.
  unfold selected_mode. rewrite parse_args_mode.
  destruct (last _) as [m|] eqn:Hlast; simpl.
  - apply last_Some_elem_of, list_elem_of_filter in Hlast as [Hm _].
    pose proof Hm as Hin%str_in_spec.
    destruct (mode_token_cases m Hm) as [->| [->| ->]]; by split.
  - split; [done|]. unfold mode_tokens. do 2 right. by left.
Qed.

(** ** The interpreter locator *)

Lemma check_output_decode_run `{Platform} argv w :
  check_output_decode argv w =
  Outcome
    (match (spawn argv (fs w)).1 with
     | NotLaunched why => Raise (OSError why (hd "" argv))
     | Exited code output =>
         if (code =? 0)%Z then
           match output with
           | Some text => Ok text
           | None => Raise UnicodeDecodeError
           end
         else Raise (CalledProcessError argv code)
     end)
    (World (spawn argv (fs w)).2 (cwd w))
    [EvSpawn argv].
Proof.
  unfold check_output_decode, run_child, bind, emit, get_fs, put_fs.
  cbn [res final events after app].
  destruct (spawn argv (fs w)) as [[why|code output] f'];
    cbn [res final events after app ret raise fst snd]; [done|].
  destruct (code =? 0)%Z; [|done]. by destruct output.
Qed.

Lemma try_candidate_run `{Platform} version cmd w :
  try_candidate (PStr version) cmd w =
  Outcome
    (Ok (if accepts version (spawn (probe cmd) (fs w)).1 then Some cmd
         else None))
    (World (spawn (probe cmd) (fs w)).2 (cwd w))
    [EvSpawn (probe cmd)].
Proof.
  unfold try_candidate, try_except, endswith_py, bind, probe.
  rewrite check_output_decode_run. cbn [res final events after].
  destruct (spawn _ _) as [[why|code [text|]] f'];
    cbn [fst snd accepts]; try destruct (code =? 0)%Z;
    cbn [andb res final events after ret app]; done.
Qed.

Lemma probe_candidates_spec `{Platform} version candidates w :
  let o := probe_candidates (PStr version) candidates w in
  let spec := first_accepted version candidates (fs w) in
  res o = Ok spec.1
  ∧ final o = World spec.2 (cwd w)
  ∧ (∃ n, events o = (fun c => EvSpawn (probe c)) <$> take n candidates)
  ∧ (spec.1 = None →
     events o = (fun c => EvSpawn (probe c)) <$> candidates).
Proof.
  revert w. induction candidates as [|cmd rest IH]; intros w; cbn zeta.
  - cbn. destruct w. split_and!; try done. by exists 0.
  - cbn [probe_candidates first_accepted]. unfold bind.
    rewrite try_candidate_run. fold (probe cmd).
    specialize (IH (World (spawn (probe cmd) (fs w)).2 (cwd w))).
    destruct (spawn (probe cmd) (fs w)) as [how f'].
    cbn zeta in IH. cbn [fs cwd fst snd res final events] in *.
    destruct (accepts version how).
    + cbn. split_and!; [done|done| |done]. by exists 1.
    + destruct IH as (IHres & IHfinal & [n IHevents] & IHnone).
      cbn [res final events after app].
      split_and!; [done|done| |].
      * exists (S n). cbn. by rewrite IHevents.
      * intros Hn. cbn. by rewrite IHnone.
Qed.

Lemma first_accepted_candidate `{Platform} version candidates f cmd :
  (first_accepted version candidates f).1 = Some cmd → cmd ∈ candidates.
Proof.
  revert f. induction candidates as [|c rest IH]; intros f; cbn; [done|].
  destruct (spawn [c; "--version"] f) as [how f'].
  destruct (accepts version how); cbn.
  - intros [= ->]. by left.
  - intros Hc. right. by eapply IH.
Qed.

Lemma find_python_executable_run `{Platform} c rest w :
  let version := String c rest in
  let o := find_python_executable (PStr version) w in
  let p := probe_candidates (PStr version) (candidates_of version) w in
  res o = res p ∧ final o = final p
  ∧ events o = EvCall FFindPythonExecutable :: events p.
Proof.
  cbn zeta. unfold find_python_executable, getitem0. norm.
  unfold candidates_of, py_format, major. by norm.
Qed.

(** C10: on the empty version string the locator raises [IndexError] while
    it builds the candidate list, before any command is started, and the
    caller's fallback is not reached; on every other version string it
    returns [None] or one of the candidates. *)
Theorem locator_total_on_nonempty_versions `{Platform} :
  (∀ w, find_python_executable (PStr "") w =
        Outcome (Raise IndexError) w [EvCall FFindPythonExecutable])
  ∧ (∀ w, res (select_python (PStr "") w) = Raise IndexError
          ∧ printed (events (select_python (PStr "") w)) = []
          ∧ spawned (events (select_python (PStr "") w)) = [])
  ∧ (∀ c rest w, ∃ found,
       res (find_python_executable (PStr (String c rest)) w) = Ok found
       ∧ (found = None
          ∨ ∃ cmd, found = Some cmd ∧ cmd ∈ candidates_of (String c rest))).
Proof.
  split_and!.
  - done.
  - intros w. unfold select_python. by norm.
  - intros c rest w.
    destruct (find_python_executable_run c rest w) as (Hres & _ & _).
    destruct (probe_candidates_spec (String c rest)
                (candidates_of (String c rest)) w) as (Hspec & _).
    cbn zeta in *. rewrite Hres, Hspec.
    eexists; split; [done|].
    destruct (first_accepted _ _ _).1 as [cmd|] eqn:Hfound; [right|by left].
    exists cmd. split; [done|]. by eapply first_accepted_candidate.
Qed.

(** C3: for a version string that is not empty the locator probes
    [python<version>], [python<major>], [python] in this order, each with
    [--version]; it returns the first candidate whose run is accepted (it
    exits normally and its output, stripped, ends with the version), or
    [None]; on [None] the caller prints the warning and goes on with the
    running interpreter. *)
Theorem locator_first_match `{Platform} (version : string) (w : world) :
  version ≠ "" →
  let o := find_python_executable (PStr version) w in
  let spec := first_accepted version (candidates_of version) (fs w) in
  res o = Ok spec.1
  ∧ fs (final o) = spec.2
  ∧ spawned (events o) `prefix_of` probe <$> candidates_of version
  ∧ (res o = Ok None → spawned (events o) = probe <$> candidates_of version)
  ∧ (res o = Ok None →
     let o' := select_python (PStr version) w in
     res o' = Ok sys_executable
     ∧ final o' = final o
     ∧ events o' =
         events o ++
         [EvPrint ("Warning: Could not find python" +:+ version
                   +:+ ". Using current Python: " +:+ sys_version_word)]).
Proof.
  intros Hne. destruct version as [|c rest]; [done|]. clear Hne.
  destruct (find_python_executable_run c rest w) as (Hres & Hfinal & Hevents).
  destruct (probe_candidates_spec (String c rest)
              (candidates_of (String c rest)) w)
    as (Hspec & Hfs & [n Hn] & Hall).
  cbn zeta in *. rewrite Hres, Hfinal, Hevents, Hspec, Hfs.
  destruct (first_accepted _ _ _) as [found f'] eqn:Hfirst.
  cbn [fst snd fs] in *.
  assert (Hmap : ∀ l : list string,
            spawned ((fun c => EvSpawn (probe c)) <$> l) = probe <$> l).
  { induction l as [|x l IH]; [done|]. rewrite fmap_cons. norm. by rewrite IH. }
  split_and!; [done|done| | |].
  - norm. rewrite Hn, Hmap. exists (probe <$> drop n (candidates_of (String c rest))).
    change (option_list None ++ ?l) with l. by rewrite <- fmap_app, take_drop.
  - intros [= ->]. norm. by rewrite Hall, Hmap.
  - intros [= ->]. unfold select_python.
    norm. rewrite Hres, Hspec. norm. rewrite Hfinal, Hfs, Hevents.
    unfold py_format. by norm.
Qed.

(** On a machine with no interpreter named [python...] the run goes on with
    [/usr/bin/python3]. *)
Lemma locator_first_match_witness :
  "3.12" ≠ ""
  ∧ res (@select_python (Posix.machine [] []) (PStr "3.12") Posix.empty_world)
    = Ok "/usr/bin/python3".
Proof.
  split; [done|].
  destruct (@locator_first_match (Posix.machine [] []) "3.12"
              Posix.empty_world) as (_ & _ & _ & _ & Hcaller); [done|].
  apply Hcaller. reflexivity.
Defined.

Lemma selected_mode_cases argv :
  selected_mode argv = "install-only" ∨ selected_mode argv = "run-only"
  ∨ selected_mode argv = "full".
Proof.
  unfold selected_mode. rewrite parse_args_mode.
  destruct (last _) as [m|] eqn:Hlast; cbn [py_or]; [|by right; right].
  apply last_Some_elem_of, list_elem_of_filter in Hlast as [Hm _].
  destruct (mode_token_cases m Hm) as [->| [->| ->]]; cbn; tauto.
Qed.

(** ** The primitives: how each one ends *)

Lemma write_file_cases `{Platform} p c w :
  (res (write_file p c w) = Ok tt
   ∧ final (write_file p c w) = World (<[p := File c]> (fs w)) (cwd w)
   ∧ io_error OpWrite p (fs w) = None ∧ fs w !! p ≠ Some Dir)
  ∨ (∃ why, res (write_file p c w) = Raise (OSError why p)
            ∧ final (write_file p c w) = w
            ∧ (io_error OpWrite p (fs w) = Some why ∨ fs w !! p = Some Dir)).
Proof.
  unfold write_file. norm.
  destruct (io_error OpWrite p (fs w)) as [why|] eqn:Hio; norm.
  - right. exists why. eauto.
  - destruct (fs w !! p) as [[|content]|] eqn:Hp; norm.
    + right. eexists. eauto.
    + left. by split_and!.
    + left. by split_and!.
Qed.

Lemma write_file_ok `{Platform} p c w :
  io_error OpWrite p (fs w) = None → fs w !! p ≠ Some Dir →
  write_file p c w =
  Outcome (Ok tt) (World (<[p := File c]> (fs w)) (cwd w)) [EvWrite p c].
Proof.
  intros Hio Hp. unfold write_file. steps. rewrite Hio.
  by destruct (fs w !! p) as [[|content]|].
Qed.

Lemma read_file_ok `{Platform} p c w :
  io_error OpRead p (fs w) = None → fs w !! p = Some (File c) →
  read_file p w = Outcome (Ok c) w [].
Proof. intros Hio Hp. unfold read_file. steps. by rewrite Hio, Hp. Qed.

Lemma os_remove_cases `{Platform} p w :
  (res (os_remove p w) = Ok tt
   ∧ final (os_remove p w) = World (delete p (fs w)) (cwd w)
   ∧ io_error OpRemove p (fs w) = None)
  ∨ (∃ e, res (os_remove p w) = Raise e ∧ final (os_remove p w) = w).
Proof.
  unfold os_remove. norm.
  destruct (io_error OpRemove p (fs w)) as [why|] eqn:Hio; norm.
  - right. eauto.
  - destruct (fs w !! p) as [[|content]|] eqn:Hp; norm; eauto.
Qed.

Lemma without_tree_absent `{Platform} p f : present (without_tree p f) p = false.
Proof.
  unfold present, without_tree. apply bool_decide_eq_false.
  intros [x Hx]. apply map_lookup_filter_Some in Hx as [_ [Hne _]]. done.
Qed.

Lemma without_tree_inside `{Platform} p f q :
  inside p q = true → without_tree p f !! q = None.
Proof.
  intros Hq. unfold without_tree. apply map_lookup_filter_None. right.
  intros x _ [_ Hin]. cbn in Hin. congruence.
Qed.

Lemma without_tree_outside `{Platform} p f q :
  q ≠ p → inside p q = false → without_tree p f !! q = f !! q.
Proof.
  intros Hne Hq. unfold without_tree.
  destruct (f !! q) as [x|] eqn:Hf.
  - apply map_lookup_filter_Some. by split.
  - apply map_lookup_filter_None. by left.
Qed.

Lemma rmtree_cases `{Platform} p w :
  (res (rmtree p w) = Ok tt
   ∧ final (rmtree p w) = World (without_tree p (fs w)) (cwd w)
   ∧ io_error OpRmtree p (fs w) = None ∧ fs w !! p = Some Dir)
  ∨ (∃ e, res (rmtree p w) = Raise e ∧ final (rmtree p w) = w
          ∧ (io_error OpRmtree p (fs w) ≠ None ∨ fs w !! p ≠ Some Dir)).
Proof.
  unfold rmtree. norm.
  destruct (io_error OpRmtree p (fs w)) as [why|] eqn:Hio; norm.
  - right. eexists. split_and!; eauto.
  - destruct (fs w !! p) as [[|content]|] eqn:Hp; norm.
    + left. by split_and!.
    + right. eexists. split_and!; eauto.
    + right. eexists. split_and!; eauto.
Qed.

Lemma subprocess_run_cases `{Platform} argv w :
  res (subprocess_run argv w) = Ok tt
  ∨ ∃ e, res (subprocess_run argv w) = Raise e.
Proof.
  unfold subprocess_run, run_child. norm.
  destruct (spawn argv (fs w)) as [[why|code output] f']; norm; [eauto|].
  destruct (code =? 0)%Z; norm; eauto.
Qed.

(** ** The script runner *)

Lemma forwarded_args_spec argv :
  forwarded_args argv = filter (fun a => a ∉ reserved_tokens) (tail argv).
Proof.
  unfold forwarded_args. apply list_filter_iff. intros a.
  rewrite <- str_in_spec. by destruct (str_in a reserved_tokens).
Qed.

(** C5: the command [run_main_script] starts is the environment's
    interpreter, the main file, and then the arguments of the command line
    that are none of [install-only], [run-only], [full], [--clean], in their
    order; no command is started only when the placeholder for a missing
    main file cannot be written.  For [full --foo bar] the script receives
    [--foo bar]. *)
Theorem run_main_script_forwards `{Platform} (argv : list string)
  (venv mf : string) (w : world) :
  let o := run_main_script argv venv mf w in
  forwarded_args argv = filter (fun a => a ∉ reserved_tokens) (tail argv)
  ∧ (spawned (events o) =
       [[get_tool_path venv "python"; mf] ++ forwarded_args argv]
     ∨ (spawned (events o) = [] ∧ ∃ why, res o = Raise (OSError why mf)))
  ∧ (∀ name, forwarded_args (name :: ["full"; "--foo"; "bar"])
             = ["--foo"; "bar"]).
Proof.
  cbn zeta. split_and!; [apply forwarded_args_spec| |done].
  unfold run_main_script. norm.
  destruct (present (fs w) mf); norm; [by left|].
  destruct (write_file_cases mf
    ("print(" +:+ dquote +:+ "Default " +:+ path_basename mf
     +:+ " is running!" +:+ dquote +:+ ")" +:+ newline) w)
    as [(Hres & _)|(why & Hres & _)]; rewrite Hres; norm; [by left|].
  right. eauto.
Qed.

(** ** The configuration loader *)

(** C4: when the configuration file is absent (and the system lets the
    loader write it and read it back, and the JSON codec reads back what it
    wrote), [load_config] writes the default record, with the five
    documented values, to the configuration file and returns that record. *)
Theorem load_config_writes_defaults `{Platform} (w : world) :
  fs w !! config_file = None →
  io_error OpWrite config_file (fs w) = None →
  io_error OpRead config_file
    (<[config_file := File (json_dump default_config)]> (fs w)) = None →
  json_load (json_dump default_config) = Some default_config →
  let o := load_config w in
  res o = Ok (default_config, script_dir)
  ∧ fs (final o) = <[config_file := File (json_dump default_config)]> (fs w)
  ∧ writes (events o) = [EvWrite config_file (json_dump default_config)]
  ∧ res (load_config (final o)) = Ok (default_config, script_dir)
  ∧ writes (events (load_config (final o))) = []
  ∧ field default_config "project_name" = Some (PStr "UnnamedProject")
  ∧ field default_config "main_file" = Some (PStr "main.py")
  ∧ field default_config "requirements_file" = Some (PStr "requirements.txt")
  ∧ field default_config "venv_dir" = Some (PStr "venv")
  ∧ field default_config "python_version" = Some (PStr "3.12")
  ∧ (∀ key, is_Some (field default_config key) →
       key ∈ ["project_name"; "main_file"; "requirements_file"; "venv_dir";
              "python_version"]).
Proof.
  intros Habsent Hwrite Hread Hcodec. cbn zeta.
  set (stored := <[config_file := File (json_dump default_config)]> (fs w)).
  assert (Hfirst : load_config w =
    Outcome (Ok (default_config, script_dir)) (World stored (cwd w))
      [EvCall FLoadConfig;
       EvPrint "Missing setup-config.json file. Creating default one...";
       EvWrite config_file (json_dump default_config);
       EvPrint "Created default setup-config.json."]).
  { unfold load_config. steps. unfold present. rewrite Habsent.
    rewrite bool_decide_eq_false_2 by (by intros [? ?]). steps.
    step by (apply write_file_ok; [done|by rewrite Habsent]).
    step by (apply read_file_ok; [done|apply lookup_insert_eq]).
    rewrite Hcodec. by steps. }
  assert (Hsecond : ∀ d, load_config (World stored d) =
    Outcome (Ok (default_config, script_dir)) (World stored d)
      [EvCall FLoadConfig]).
  { intros d. unfold load_config. steps. unfold present, stored.
    rewrite lookup_insert_eq, bool_decide_eq_true_2 by eauto. steps.
    step by (apply read_file_ok; [done|apply lookup_insert_eq]).
    rewrite Hcodec. by steps. }
  rewrite Hfirst. cbn [res final events fs]. rewrite Hsecond.
  split_and!; try done.
  intros key. unfold field, default_config. cbn [dict_lookup].
  repeat match goal with
         | |- context [String.eqb ?k key] =>
             destruct (String.eqb_spec k key) as [<-|_];
             [intros _; by apply (bool_decide_unpack _)|]
         end.
  by intros [? ?].
Qed.

(** On the POSIX machine, with nothing on disk. *)
Lemma load_config_writes_defaults_witness :
  res (@load_config (Posix.machine [] []) Posix.empty_world)
  = Ok (default_config, "/proj").
Proof.
  apply (@load_config_writes_defaults (Posix.machine [] []) Posix.empty_world);
    reflexivity.
Defined.

(** ** What resolving the settings can do

    Loading the configuration and locating the interpreter start commands
    and may write the default configuration; they do nothing else. *)

Lemma getitem0_events v w : events (getitem0 v w) = [] ∧ final (getitem0 v w) = w.
Proof. by destruct v as [| | |[|c rest]|[|x l]|]. Qed.

Lemma config_get_run config key default w :
  events (config_get config key default w) = []
  ∧ final (config_get config key default w) = w.
Proof. by destruct config. Qed.

Lemma join_script_dir_run `{Platform} d v w :
  events (join_script_dir d v w) = [] ∧ final (join_script_dir d v w) = w.
Proof. by destruct v. Qed.

Lemma try_candidate_events `{Platform} version cmd w :
  events (try_candidate version cmd w) = [EvSpawn [cmd; "--version"]].
Proof.
  unfold try_candidate. rewrite events_try_except, events_bind.
  rewrite events_check_output_decode.
  destruct (res (check_output_decode _ w)) as [text| |] eqn:Hout.
  - rewrite res_bind, events_bind, Hout.
    destruct version; by cbn.
  - by rewrite res_bind, Hout.
  - by rewrite res_bind, Hout.
Qed.

Lemma probe_candidates_events `{Platform} version candidates w :
  ∃ n, events (probe_candidates version candidates w)
       = (fun c => EvSpawn (probe c)) <$> take n candidates.
Proof.
  revert w. induction candidates as [|cmd rest IH]; intros w.
  - by exists 0.
  - cbn [probe_candidates]. rewrite events_bind, try_candidate_events.
    destruct (res (try_candidate version cmd w)) as [[c|]| |].
    + by exists 1.
    + destruct (IH (final (try_candidate version cmd w))) as [n Hn].
      exists (S n). cbn. by rewrite Hn.
    + by exists 1.
    + by exists 1.
Qed.

Lemma spawns_only (l : list string) :
  effects ((fun c => EvSpawn (probe c)) <$> l) = []
  ∧ writes ((fun c => EvSpawn (probe c)) <$> l) = []
  ∧ printed ((fun c => EvSpawn (probe c)) <$> l) = [].
Proof.
  induction l as [|x l (IH1 & IH2 & IH3)]; [done|].
  rewrite fmap_cons, effects_cons, writes_cons, printed_cons, IH1, IH2, IH3.
  done.
Qed.

Lemma find_python_executable_quiet `{Platform} version w :
  effects (events (find_python_executable version w)) = []
  ∧ writes (events (find_python_executable version w)) = []
  ∧ printed (events (find_python_executable version w)) = [].
Proof.
  unfold find_python_executable. unfold call.
  rewrite !events_bind, events_emit, res_emit, final_emit.
  destruct (getitem0_events version w) as [-> ->].
  destruct (res (getitem0 version w)) as [first| |]; [|done..].
  destruct (probe_candidates_events version
    ["python" +:+ py_format version; "python" +:+ py_format first; "python"] w)
    as [n ->].
  cbn [app]. rewrite effects_cons, writes_cons, printed_cons.
  by destruct (spawns_only (take n
    ["python" +:+ py_format version; "python" +:+ py_format first; "python"]))
    as (-> & -> & ->).
Qed.

Lemma select_python_quiet `{Platform} version w :
  effects (events (select_python version w)) = []
  ∧ writes (events (select_python version w)) = [].
Proof.
  unfold select_python. rewrite events_bind, effects_app, writes_app.
  destruct (find_python_executable_quiet version w) as (-> & -> & _).
  destruct (res (find_python_executable version w)) as [[cmd|]| |];
    [destruct (String.eqb cmd "")|..]; by exec.
Qed.

Lemma write_file_final_present `{Platform} p c w :
  res (write_file p c w) = Ok tt →
  present (fs (final (write_file p c w))) p = true.
Proof.
  destruct (write_file_cases p c w) as [(_ & -> & _)|(why & -> & _)]; [|done].
  intros _. unfold present. cbn. rewrite lookup_insert_eq.
  apply bool_decide_eq_true. eauto.
Qed.

Lemma read_file_final `{Platform} p w : final (read_file p w) = w.
Proof. unfold read_file. exec. Qed.

(** [load_config] writes at most the default configuration, and only when
    the file is absent; when it returns, the file is there. *)
Lemma load_config_writes `{Platform} w :
  writes (events (load_config w)) =
    (if present (fs w) config_file then []
     else [EvWrite config_file (json_dump default_config)])
  ∧ effects (events (load_config w)) = []
  ∧ (∀ x, res (load_config w) = Ok x →
       present (fs (final (load_config w))) config_file = true).
Proof.
  unfold load_config.
  destruct (present (fs w) config_file) eqn:Hfound.
  - steps. rewrite Hfound. steps.
    split_and!; [by exec|by exec|].
    intros x. norm. rewrite read_file_final. by exec.
  - steps. rewrite Hfound. steps.
    split_and!; [by exec|by exec|].
    intros x. norm.
    pose proof (write_file_final_present config_file
                  (json_dump default_config) w) as Hthere.
    destruct (res (write_file _ _ w)) as [[]| |]; [|done..].
    norm. rewrite read_file_final. exec; auto.
Qed.

Lemma events_config_get config key default w :
  events (config_get config key default w) = [].
Proof. apply config_get_run. Qed.
Lemma final_config_get config key default w :
  final (config_get config key default w) = w.
Proof. apply config_get_run. Qed.
Lemma events_join_script_dir `{Platform} d v w :
  events (join_script_dir d v w) = [].
Proof. apply join_script_dir_run. Qed.
Lemma final_join_script_dir `{Platform} d v w :
  final (join_script_dir d v w) = w.
Proof. apply join_script_dir_run. Qed.
Lemma effects_select_python `{Platform} version w :
  effects (events (select_python version w)) = [].
Proof. apply select_python_quiet. Qed.
Lemma writes_select_python `{Platform} version w :
  writes (events (select_python version w)) = [].
Proof. apply select_python_quiet. Qed.
Lemma effects_load_config `{Platform} w : effects (events (load_config w)) = [].
Proof. apply load_config_writes. Qed.
Lemma writes_load_config `{Platform} w :
  writes (events (load_config w)) =
    if present (fs w) config_file then []
    else [EvWrite config_file (json_dump default_config)].
Proof. apply load_config_writes. Qed.

#[global] Hint Rewrite events_config_get final_config_get
  @events_join_script_dir @final_join_script_dir
  @effects_select_python @writes_select_python
  @effects_load_config @writes_load_config : script.

Lemma bind_ext {A B} (m : M A) (k k' : A -> M B) w :
  (∀ a w', k a w' = k' a w') → bind m k w = bind m k' w.
Proof. intros Hk. unfold bind. destruct (res (m w)); by rewrite ?Hk. Qed.

(** The program is its resolving phase followed by the mode logic. *)
Lemma program_split `{Platform} argv w :
  program argv w = bind program_resolve (main_run argv) w.
Proof.
  unfold program, program_resolve, main.
  rewrite bind_assoc. apply bind_ext. intros [config d] w1.
  rewrite bind_assoc. apply bind_ext. intros name w2.
  rewrite bind_assoc. apply bind_ext. intros [] w3.
  by rewrite bind_assoc.
Qed.

Lemma effects_bind_nil {A B} (m : M A) (k : A -> M B) w :
  effects (events (m w)) = [] →
  (∀ a w', effects (events (k a w')) = []) →
  effects (events (bind m k w)) = [].
Proof.
  intros Hm Hk. rewrite events_bind, effects_app, Hm.
  destruct (res (m w)); [apply Hk|done..].
Qed.

Lemma writes_bind_nil {A B} (m : M A) (k : A -> M B) w :
  writes (events (m w)) = [] →
  (∀ a w', writes (events (k a w')) = []) →
  writes (events (bind m k w)) = [].
Proof.
  intros Hm Hk. rewrite events_bind, writes_app, Hm.
  destruct (res (m w)); [apply Hk|done..].
Qed.

Ltac quiet :=
  repeat first
    [ apply effects_bind_nil; [by autorewrite with script|intros ? ?]
    | apply writes_bind_nil; [by autorewrite with script|intros ? ?] ];
  try by autorewrite with script.

(** After the configuration is loaded, resolving the settings starts
    commands and prints; it writes nothing. *)
Lemma main_resolve_rest_quiet `{Platform} w :
  effects (events (main_resolve w)) = []
  ∧ writes (events (main_resolve w)) = writes (events (load_config w)).
Proof.
  unfold main_resolve. split.
  - apply effects_bind_nil; [by autorewrite with script|].
    intros [config d] w1. unfold chdir at 1. quiet.
  - rewrite events_bind, writes_app.
    destruct (res (load_config w)) as [[config d]| |]; [|by rewrite app_nil_r..].
    rewrite (writes_bind_nil (chdir d)); [by rewrite app_nil_r|done|].
    intros [] w1. quiet.
Qed.

Lemma main_resolve_quiet `{Platform} w :
  effects (events (main_resolve w)) = []
  ∧ writes (events (main_resolve w)) =
      if present (fs w) config_file then []
      else [EvWrite config_file (json_dump default_config)].
Proof.
  destruct (main_resolve_rest_quiet w) as [-> ->].
  by rewrite writes_load_config.
Qed.

Lemma program_resolve_quiet `{Platform} w :
  effects (events (program_resolve w)) = []
  ∧ writes (events (program_resolve w)) =
      if present (fs w) config_file then []
      else [EvWrite config_file (json_dump default_config)].
Proof.
  unfold program_resolve.
  pose proof (load_config_writes w) as (Hw & He & Hthere).
  rewrite events_bind, effects_app, writes_app, Hw, He.
  destruct (res (load_config w)) as [[config d]| |] eqn:Hres;
    [|by rewrite !app_nil_r..].
  specialize (Hthere _ eq_refl).
  destruct (main_resolve_quiet (final (load_config w))) as [He' Hw'].
  rewrite Hthere in Hw'.
  rewrite events_bind, effects_app, writes_app.
  rewrite events_config_get, final_config_get.
  destruct (res (config_get config _ _ _)) as [name| |];
    [|by rewrite !app_nil_r..].
  unfold print, call. rewrite !events_bind, !res_emit, !final_emit, !events_emit.
  rewrite !effects_app, !writes_app, He', Hw'.
  by destruct (present (fs w) config_file).
Qed.

(** ** The mode logic *)

Lemma clean_step_skip `{Platform} argv s w :
  clean_requested argv && present (fs w) (venv_dir s) = false →
  clean_step argv s w = Outcome (Ok tt) w [].
Proof.
  intros Hskip. unfold clean_step.
  destruct (clean_requested argv); steps; [|done].
  cbn in Hskip. rewrite Hskip. by steps.
Qed.

Lemma clean_step_remove `{Platform} argv s w :
  clean_requested argv = true → present (fs w) (venv_dir s) = true →
  clean_step argv s w =
  after [EvPrint "Removing existing virtual environment..."]
    (rmtree (venv_dir s) w).
Proof.
  intros Hclean Hfound. unfold clean_step. rewrite Hclean. steps.
  rewrite Hfound. by steps.
Qed.

Lemma mode_dispatch_install_only `{Platform} argv s w :
  selected_mode argv = "install-only" →
  mode_dispatch argv s w =
  bind (ensure_env s)
    (fun _ => install_requirements (venv_dir s) (requirements_file s)) w.
Proof.
  intros Hmode. unfold mode_dispatch, ensure_env. rewrite Hmode.
  change (String.eqb "install-only" "install-only") with true. cbv iota.
  by rewrite bind_assoc.
Qed.

Lemma mode_dispatch_full `{Platform} argv s w :
  selected_mode argv = "full" →
  mode_dispatch argv s w =
  bind (ensure_env s)
    (fun _ =>
       install_requirements (venv_dir s) (requirements_file s);;
       run_main_script argv (venv_dir s) (main_file s)) w.
Proof.
  intros Hmode. unfold mode_dispatch, ensure_env. rewrite Hmode.
  change (String.eqb "full" "install-only") with false.
  change (String.eqb "full" "run-only") with false.
  change (String.eqb "full" "full") with true. cbv iota.
  by rewrite bind_assoc.
Qed.

Lemma mode_dispatch_run_only `{Platform} argv s w :
  selected_mode argv = "run-only" →
  mode_dispatch argv s w =
  if present (fs w) (venv_dir s)
  then run_main_script argv (venv_dir s) (main_file s) w
  else Outcome (Exit 1) w [EvPrint not_found_message].
Proof.
  intros Hmode. unfold mode_dispatch. rewrite Hmode.
  change (String.eqb "run-only" "install-only") with false.
  change (String.eqb "run-only" "run-only") with true. cbv iota.
  steps. destruct (present (fs w) (venv_dir s)); by steps.
Qed.

Lemma ensure_env_run `{Platform} s w :
  ensure_env s w =
  if present (fs w) (venv_dir s) then Outcome (Ok tt) w []
  else create_virtualenv (selected_python s) (venv_dir s) w.
Proof.
  unfold ensure_env. steps. by destruct (present (fs w) (venv_dir s)).
Qed.

Lemma dispatch_effects_install_only found :
  dispatch_effects "install-only" found
  = (if found then [] else [Create]) ++ [Install].
Proof. done. Qed.

Lemma dispatch_effects_run_only found :
  dispatch_effects "run-only" found = if found then [Run] else [].
Proof. done. Qed.

Lemma dispatch_effects_full found :
  dispatch_effects "full" found
  = (if found then [] else [Create]) ++ [Install; Run].
Proof. done. Qed.

Lemma mode_dispatch_effects `{Platform} argv s w :
  let o := mode_dispatch argv s w in
  let expected :=
    dispatch_effects (selected_mode argv) (present (fs w) (venv_dir s)) in
  effects (events o) `prefix_of` expected
  ∧ (res o = Ok tt → effects (events o) = expected).
Proof.
  cbn zeta.
  destruct (selected_mode_cases argv) as [Hmode|[Hmode|Hmode]].
  - rewrite mode_dispatch_install_only by done.
    rewrite Hmode, dispatch_effects_install_only.
    rewrite res_bind, events_bind, ensure_env_run.
    destruct (present (fs w) (venv_dir s)).
    + norm. split; [by exists []|done].
    + norm. destruct (res (create_virtualenv _ _ w)) as [[]| |]; norm;
        (split; [by eexists|done]).
  - rewrite mode_dispatch_run_only by done.
    rewrite Hmode, dispatch_effects_run_only.
    destruct (present (fs w) (venv_dir s)).
    + norm. split; [by exists []|done].
    + norm. split; [by exists []|done].
  - rewrite mode_dispatch_full by done.
    rewrite Hmode, dispatch_effects_full.
    rewrite res_bind, events_bind, ensure_env_run.
    destruct (present (fs w) (venv_dir s)).
    + norm. destruct (res (install_requirements _ _ w)) as [[]| |]; norm;
        (split; [by eexists|done]).
    + norm. destruct (res (create_virtualenv _ _ w)) as [[]| |]; norm;
        [|split; [by eexists|done]..].
      destruct (res (install_requirements _ _ _)) as [[]| |]; norm;
        (split; [by eexists|done]).
Qed.

Lemma main_run_effects `{Platform} argv s w :
  let o := main_run argv s w in
  let expected :=
    documented (selected_mode argv) (clean_requested argv)
      (present (fs w) (venv_dir s)) in
  effects (events o) `prefix_of` expected
  ∧ (res o = Ok tt → effects (events o) = expected).
Proof.
  cbn zeta. unfold main_run, documented.
  destruct (clean_requested argv && present (fs w) (venv_dir s)) eqn:Hclean.
  - apply andb_true_iff in Hclean as [Hc Hfound].
    erewrite bind_outcome by (apply clean_step_remove; done).
    rewrite Hc, Hfound. cbn [andb negb app].
    destruct (rmtree_cases (venv_dir s) w)
      as [(Hres & Hfinal & _)|(e & Hres & Hfinal & _)];
      rewrite Hres, Hfinal, events_rmtree.
    + destruct (mode_dispatch_effects argv s
                  (World (without_tree (venv_dir s) (fs w)) (cwd w)))
        as [Hprefix Hdone].
      cbn zeta in Hprefix, Hdone. cbn [fs] in Hprefix, Hdone.
      rewrite without_tree_absent in Hprefix, Hdone.
      norm. destruct (res (mode_dispatch argv s _)) as [[]| |]; norm.
      * split; [by apply prefix_cons|]. intros _. f_equal. by apply Hdone.
      * split; [by apply prefix_cons|done].
      * split; [by apply prefix_cons|done].
    + norm. split; [by eexists|done].
  - erewrite bind_outcome by (apply clean_step_skip; done).
    assert (present (fs w) (venv_dir s) && negb (clean_requested argv)
            = present (fs w) (venv_dir s)) as ->.
    { destruct (present _ _), (clean_requested argv); done. }
    destruct (mode_dispatch_effects argv s w) as [Hprefix Hdone].
    cbn zeta in *. norm.
    destruct (res (mode_dispatch argv s w)) as [[]| |]; norm;
      (split; [done|]); [|done..].
    intros _. by apply Hdone.
Qed.

(** An element that is syntactically none of the members of a list. *)
Ltac not_in_list :=
  let Hin := fresh "Hin" in
  intros Hin;
  repeat (apply elem_of_cons in Hin as [Hin|Hin]; [discriminate Hin|]);
  by apply elem_of_nil in Hin.

Lemma dispatch_effects_no_run found :
  Run ∉ dispatch_effects "install-only" found.
Proof. destruct found; cbn; not_in_list. Qed.

Lemma not_elem_of_prefix {A} (x : A) (l1 l2 : list A) :
  l1 `prefix_of` l2 → x ∉ l2 → x ∉ l1.
Proof. intros [k ->] Hx Hl. apply Hx, elem_of_app. by left. Qed.

(** C1: the side effects of a run, among removing the environment, creating
    it, installing the requirements and running the main script, are the
    documented ones for the mode and the flag, in order.  A run cut short by
    a failure performs a prefix of them and does not return normally; a
    run that returns normally performs all of them and nothing else; a run
    that fails before the mode logic performs none.  In [install-only] mode
    the script runner is never called. *)
Theorem mode_effects_as_documented `{Platform} (argv : list string) (w : world) :
  let o := program argv w in
  let r := program_resolve w in
  (∀ s, res r = Ok s →
     let expected :=
       documented (selected_mode argv) (clean_requested argv)
         (present (fs (final r)) (venv_dir s)) in
     effects (events o) `prefix_of` expected
     ∧ (res o = Ok tt → effects (events o) = expected))
  ∧ ((∀ s, res r ≠ Ok s) → effects (events o) = [] ∧ res o ≠ Ok tt)
  ∧ (selected_mode argv = "install-only" → Run ∉ effects (events o))
  ∧ (∀ found,
       documented "install-only" false found
         = (if found then [] else [Create]) ++ [Install]
       ∧ documented "install-only" true found
         = (if found then [Remove] else []) ++ [Create; Install]
       ∧ documented "run-only" false found = (if found then [Run] else [])
       ∧ documented "run-only" true found = (if found then [Remove] else [])
       ∧ documented "full" false found
         = (if found then [] else [Create]) ++ [Install; Run]
       ∧ documented "full" true found
         = (if found then [Remove] else []) ++ [Create; Install; Run]).
Proof.
  cbn zeta. rewrite program_split.
  destruct (program_resolve_quiet w) as [Hquiet _].
  assert (Hreach : ∀ s, res (program_resolve w) = Ok s →
    effects (events (bind program_resolve (main_run argv) w))
      = effects (events (main_run argv s (final (program_resolve w))))
    ∧ res (bind program_resolve (main_run argv) w)
      = res (main_run argv s (final (program_resolve w)))).
  { intros s Hs. rewrite res_bind, events_bind, effects_app, Hquiet, Hs. done. }
  split_and!.
  - intros s Hs. destruct (Hreach s Hs) as [-> ->]. apply main_run_effects.
  - intros Hfail. rewrite res_bind, events_bind, effects_app, Hquiet.
    destruct (res (program_resolve w)) as [s| |]; [by destruct (Hfail s)|done..].
  - intros Hmode.
    destruct (res (program_resolve w)) as [s| |] eqn:Hs.
    + destruct (Hreach s eq_refl) as [-> _].
      destruct (main_run_effects argv s (final (program_resolve w)))
        as [Hprefix _]. cbn zeta in Hprefix.
      eapply not_elem_of_prefix; [exact Hprefix|].
      unfold documented. rewrite Hmode. intros [Hin|Hin]%elem_of_app.
      * revert Hin. destruct (_ && _); not_in_list.
      * by eapply dispatch_effects_no_run.
    + rewrite events_bind, effects_app, Hquiet, Hs. not_in_list.
    + rewrite events_bind, effects_app, Hquiet, Hs. not_in_list.
  - intros []; by split_and!.
Qed.

(** ** Resolving the settings never reaches the cleanup *)

Lemma not_cleanup_bind {A B} (m : M A) (k : A -> M B) w :
  Forall not_cleanup (events (m w)) →
  (∀ a w', Forall not_cleanup (events (k a w'))) →
  Forall not_cleanup (events (bind m k w)).
Proof.
  intros Hm Hk. rewrite events_bind. apply Forall_app. split; [done|].
  destruct (res (m w)); [apply Hk|constructor..].
Qed.

Ltac not_cleanup_leaf :=
  unfold call, print; autorewrite with script;
  repeat (constructor; try done).

Ltac not_cleanup_steps :=
  repeat (apply not_cleanup_bind; [by not_cleanup_leaf|intros ? ?]).

Lemma not_cleanup_load_config `{Platform} w :
  Forall not_cleanup (events (load_config w)).
Proof.
  unfold load_config. not_cleanup_steps.
  apply not_cleanup_bind.
  { case_match; [|by not_cleanup_leaf]. not_cleanup_steps. not_cleanup_leaf. }
  intros ? ?. not_cleanup_steps.
  apply not_cleanup_bind; [by case_match|]. intros ? ?. not_cleanup_leaf.
Qed.

Lemma not_cleanup_spawns (l : list string) :
  Forall not_cleanup ((fun c => EvSpawn (probe c)) <$> l).
Proof. induction l; constructor; done. Qed.

Lemma events_getitem0 v w : events (getitem0 v w) = [].
Proof. apply getitem0_events. Qed.

#[global] Hint Rewrite events_getitem0 : script.

Lemma not_cleanup_select_python `{Platform} version w :
  Forall not_cleanup (events (select_python version w)).
Proof.
  unfold select_python. apply not_cleanup_bind.
  - unfold find_python_executable. not_cleanup_steps.
    match goal with
    | |- Forall _ (events (probe_candidates _ ?l ?w0)) =>
        destruct (probe_candidates_events version l w0) as [n ->]
    end.
    apply not_cleanup_spawns.
  - intros [cmd|] w'; [destruct (String.eqb cmd "")|];
      not_cleanup_steps; not_cleanup_leaf.
Qed.

Lemma not_cleanup_program_resolve `{Platform} w :
  Forall not_cleanup (events (program_resolve w)).
Proof.
  unfold program_resolve.
  apply not_cleanup_bind; [apply not_cleanup_load_config|].
  intros [config d] w1. not_cleanup_steps. unfold main_resolve.
  apply not_cleanup_bind; [apply not_cleanup_load_config|].
  intros [config' d'] w2. not_cleanup_steps.
  apply not_cleanup_bind; [apply not_cleanup_select_python|].
  intros ? ?. not_cleanup_leaf.
Qed.

(** ** [run-only] without an environment *)

Lemma main_run_run_only_absent `{Platform} argv s w :
  selected_mode argv = "run-only" →
  present (fs w) (venv_dir s) = false →
  main_run argv s w = Outcome (Exit 1) w [EvPrint not_found_message].
Proof.
  intros Hmode Habsent. unfold main_run.
  erewrite bind_outcome
    by (apply clean_step_skip; rewrite Habsent; apply andb_false_r).
  cbv iota. rewrite after_nil.
  erewrite bind_outcome by (rewrite mode_dispatch_run_only, Habsent; done).
  done.
Qed.

(** C2, as stated, fails: started as [setup.py run-only] in a directory
    with no configuration file and no environment, the program writes the
    default [setup-config.json] before it reports the missing environment. *)
Lemma run_only_without_env_writes_config :
  ¬ @run_only_without_env_writes_nothing
      (Posix.machine [("python3", "Python 3.12")] [])
      ["setup.py"; "run-only"] Posix.empty_world.
Proof.
  intros Hclaim. destruct Hclaim as (_ & Hwrites & _).
  - reflexivity.
  - intros s Hs. vm_compute in Hs. injection Hs as <-. reflexivity.
  - vm_compute in Hwrites. discriminate Hwrites.
Qed.

(** C2, amended: in [run-only] mode, when the settings are resolved and the
    environment directory is not there, the program prints the error and
    exits with status 1; it removes, creates, installs and runs nothing, and
    leaves the files as resolving the settings left them.  The one write of
    the whole run is the default configuration, made only when the
    configuration file was absent. *)
Theorem run_only_without_env_exits `{Platform} (argv : list string)
  (w : world) (s : settings) :
  selected_mode argv = "run-only" →
  res (program_resolve w) = Ok s →
  present (fs (final (program_resolve w))) (venv_dir s) = false →
  let o := program argv w in
  res o = Exit 1
  ∧ exit_status (res o) = 1%Z
  ∧ events o = events (program_resolve w) ++ [EvPrint not_found_message]
  ∧ final o = final (program_resolve w)
  ∧ effects (events o) = []
  ∧ writes (events o) =
      (if present (fs w) config_file then []
       else [EvWrite config_file (json_dump default_config)])
  ∧ EvCall FCleanupTempFiles ∉ events o.
Proof.
  intros Hmode Hs Habsent. cbn zeta. rewrite program_split.
  destruct (program_resolve_quiet w) as [Heffects Hwrites].
  rewrite res_bind, events_bind, final_bind, Hs.
  rewrite main_run_run_only_absent by done. cbn [res final events exit_status].
  rewrite effects_app, writes_app, Heffects, Hwrites.
  split_and!; try done.
  - by destruct (present (fs w) config_file).
  - rewrite elem_of_app. intros [Hin|Hin].
    + pose proof (not_cleanup_program_resolve w) as Hall.
      rewrite Forall_forall in Hall. by apply (Hall _ Hin).
    + by apply list_elem_of_singleton in Hin.
Qed.

(** On the POSIX machine with nothing on disk, [setup.py run-only] ends with
    status 1. *)
Lemma run_only_without_env_exits_witness :
  res (@program (Posix.machine [("python3", "Python 3.12")] [])
         ["setup.py"; "run-only"] Posix.empty_world) = Exit 1.
Proof.
  eapply (@run_only_without_env_exits
            (Posix.machine [("python3", "Python 3.12")] [])
            ["setup.py"; "run-only"] Posix.empty_world
            (Settings "/proj" "/proj/main.py" "/proj/requirements.txt"
               "/proj/venv" "python3")); reflexivity.
Defined.

(** ** The cleanup *)

Lemma cleanup_temp_files_cases `{Platform} d w :
  let o := cleanup_temp_files d w in
  let tf := temp_file d in
  res o = Ok tt
  ∧ ((present (fs w) tf = false
      ∧ events o = [EvCall FCleanupTempFiles] ∧ final o = w)
     ∨ (present (fs w) tf = true ∧ res (os_remove tf w) = Ok tt
        ∧ events o = [EvCall FCleanupTempFiles; EvRemove tf;
                      EvPrint "Removed tempCodeRunnerFile.py."]
        ∧ final o = World (delete tf (fs w)) (cwd w))
     ∨ (present (fs w) tf = true
        ∧ ∃ e, res (os_remove tf w) = Raise e
               ∧ events o =
                   [EvCall FCleanupTempFiles; EvRemove tf;
                    EvPrint ("Failed to remove tempCodeRunnerFile.py: "
                             +:+ exn_str e)]
               ∧ final o = w)).
Proof.
  cbn zeta. unfold cleanup_temp_files. steps.
  destruct (present (fs w) (temp_file d)) eqn:Hfound.
  - destruct (os_remove_cases (temp_file d) w)
      as [(Hres & Hfinal & _)|(e & Hres & Hfinal)].
    + norm. rewrite Hres, Hfinal. norm. split; [done|]. right. left. done.
    + norm. rewrite Hres, Hfinal. norm. split; [done|]. right. right.
      split; [done|]. by exists e.
  - steps. split; [done|]. by left.
Qed.

(** C9: when the clean step and the mode dispatch return, in whatever
    mode, [main] goes on with [cleanup_temp_files]; the cleanup always
    returns normally: it does nothing when [tempCodeRunnerFile.py] is not
    there, removes it and says so, or prints the failure of the removal and
    leaves the files alone; in [run-only] mode without an environment the
    run ends with [sys.exit(1)] right after the error message, before the
    cleanup. *)
Theorem cleanup_after_dispatch `{Platform} (argv : list string)
  (s : settings) (w : world) :
  let c := clean_step argv s w in
  let d := mode_dispatch argv s (final c) in
  let o := main_run argv s w in
  (res c = Ok tt → res d = Ok tt →
     res o = Ok tt
     ∧ events o =
         events c ++ events d ++ events (cleanup_temp_files (dir s) (final d))
     ∧ final o = final (cleanup_temp_files (dir s) (final d)))
  ∧ (∀ w',
       let u := cleanup_temp_files (dir s) w' in
       let tf := path_join (dir s) "tempCodeRunnerFile.py" in
       res u = Ok tt
       ∧ ((present (fs w') tf = false
           ∧ events u = [EvCall FCleanupTempFiles] ∧ final u = w')
          ∨ (present (fs w') tf = true ∧ res (os_remove tf w') = Ok tt
             ∧ events u = [EvCall FCleanupTempFiles; EvRemove tf;
                           EvPrint "Removed tempCodeRunnerFile.py."]
             ∧ final u = World (delete tf (fs w')) (cwd w'))
          ∨ (present (fs w') tf = true
             ∧ ∃ e, res (os_remove tf w') = Raise e
                    ∧ events u =
                        [EvCall FCleanupTempFiles; EvRemove tf;
                         EvPrint ("Failed to remove tempCodeRunnerFile.py: "
                                  +:+ exn_str e)]
                    ∧ final u = w')))
  ∧ (selected_mode argv = "run-only" →
     present (fs w) (venv_dir s) = false →
     o = Outcome (Exit 1) w [EvPrint not_found_message]).
Proof.
  cbn zeta. split_and!.
  - intros Hc Hd. unfold main_run.
    rewrite res_bind, events_bind, final_bind, Hc.
    rewrite res_bind, events_bind, final_bind, Hd.
    split_and!; [|done..].
    apply (cleanup_temp_files_cases (dir s)).
  - intros w'. apply (cleanup_temp_files_cases (dir s) w').
  - apply main_run_run_only_absent.
Qed.

(** A removal the system refuses is reported and the cleanup returns. *)
Example cleanup_reports_refused_removal :
  let o := @cleanup_temp_files
             (Posix.machine [] [(OpRemove, "/proj/tempCodeRunnerFile.py")])
             "/proj"
             (World {[ "/proj/tempCodeRunnerFile.py" := File "x" ]} "/proj") in
  res o = Ok tt
  ∧ printed (events o) =
      ["Failed to remove tempCodeRunnerFile.py: Permission denied: /proj/tempCodeRunnerFile.py"]
  ∧ present (fs (final o)) "/proj/tempCodeRunnerFile.py" = true.
Proof. vm_compute. done. Qed.

(** ** [--clean] *)

Lemma create_virtualenv_head `{Platform} py venv w :
  ∃ t, events (create_virtualenv py venv w) = EvCall FCreateVirtualenv :: t.
Proof. unfold create_virtualenv. steps. rewrite events_after. by eexists. Qed.

Lemma rmtree_ok `{Platform} p w :
  io_error OpRmtree p (fs w) = None → fs w !! p = Some Dir →
  rmtree p w =
  Outcome (Ok tt) (World (without_tree p (fs w)) (cwd w)) [EvRmtree p].
Proof. intros Hio Hp. unfold rmtree. steps. rewrite Hio, Hp. by steps. Qed.

Lemma rmtree_refused `{Platform} p w why :
  io_error OpRmtree p (fs w) = Some why →
  rmtree p w = Outcome (Raise (OSError why p)) w [EvRmtree p].
Proof. intros Hio. unfold rmtree. steps. rewrite Hio. by steps. Qed.

Lemma present_dir f p : f !! p = Some Dir → present f p = true.
Proof. intros Hp. unfold present. rewrite Hp. apply bool_decide_eq_true. eauto. Qed.

Lemma without_tree_lookup_root `{Platform} p f : without_tree p f !! p = None.
Proof.
  pose proof (without_tree_absent p f) as Habsent. unfold present in Habsent.
  apply bool_decide_eq_false in Habsent.
  destruct (without_tree p f !! p) eqn:Hp; [|done]. destruct Habsent. eauto.
Qed.

(** C7: with [--clean] on the command line and the environment directory
    there, the first thing the mode logic of [main] does, in every mode, is
    to announce and call [shutil.rmtree] on the directory.  When the removal
    goes through, the directory and everything below it are gone before the
    mode's own logic starts: [install-only] and [full] then find no
    environment and create one, [run-only] reports that there is none and
    exits.  When the system refuses the removal the run ends there. *)
Theorem clean_removes_environment_first `{Platform} (argv : list string)
  (s : settings) (w : world) :
  "--clean" ∈ tail argv →
  fs w !! venv_dir s = Some Dir →
  let o := main_run argv s w in
  let w' := World (without_tree (venv_dir s) (fs w)) (cwd w) in
  (∃ rest, events o =
             EvPrint removing_message :: EvRmtree (venv_dir s) :: rest)
  ∧ (io_error OpRmtree (venv_dir s) (fs w) = None →
     final (clean_step argv s w) = w'
     ∧ fs w' !! venv_dir s = None
     ∧ (∀ q, inside (venv_dir s) q = true → fs w' !! q = None)
     ∧ events o =
         EvPrint removing_message :: EvRmtree (venv_dir s)
         :: events (bind (mode_dispatch argv s)
                      (fun _ => cleanup_temp_files (dir s)) w')
     ∧ (selected_mode argv = "install-only" ∨ selected_mode argv = "full" →
        ∃ rest, events o =
                  EvPrint removing_message :: EvRmtree (venv_dir s)
                  :: EvCall FCreateVirtualenv :: rest)
     ∧ (selected_mode argv = "run-only" →
        o = Outcome (Exit 1) w'
              [EvPrint removing_message; EvRmtree (venv_dir s);
               EvPrint not_found_message]))
  ∧ (∀ why, io_error OpRmtree (venv_dir s) (fs w) = Some why →
       o = Outcome (Raise (OSError why (venv_dir s))) w
             [EvPrint removing_message; EvRmtree (venv_dir s)]).
Proof.
  intros Hflag Hdir. cbn zeta.
  assert (Hclean : clean_requested argv = true).
  { rewrite clean_requested_spec. by apply bool_decide_eq_true. }
  pose proof (present_dir _ _ Hdir) as Hfound.
  pose proof (clean_step_remove argv s w Hclean Hfound) as Hstep.
  fold removing_message in Hstep.
  split_and!.
  - unfold main_run. rewrite events_bind, Hstep, events_after, events_rmtree.
    by eexists.
  - intros Hio. pose proof (rmtree_ok _ w Hio Hdir) as Hrm.
    rewrite Hrm in Hstep. cbn in Hstep.
    assert (Hrun : main_run argv s w =
      after [EvPrint removing_message; EvRmtree (venv_dir s)]
        (bind (mode_dispatch argv s) (fun _ => cleanup_temp_files (dir s))
           (World (without_tree (venv_dir s) (fs w)) (cwd w)))).
    { unfold main_run. by erewrite bind_outcome by exact Hstep. }
    assert (Habsent : present (without_tree (venv_dir s) (fs w)) (venv_dir s)
                      = false) by apply without_tree_absent.
    split_and!.
    + by rewrite Hstep.
    + apply without_tree_lookup_root.
    + intros q Hq. by apply without_tree_inside.
    + by rewrite Hrun.
    + intros Hmode. rewrite Hrun, events_after, events_bind.
      assert (∃ t,
        events (mode_dispatch argv s
                  (World (without_tree (venv_dir s) (fs w)) (cwd w)))
        = EvCall FCreateVirtualenv :: t) as [t ->]; [|by eexists].
      destruct (create_virtualenv_head (selected_python s) (venv_dir s)
                  (World (without_tree (venv_dir s) (fs w)) (cwd w)))
        as [t Ht].
      destruct Hmode as [Hmode|Hmode].
      * rewrite mode_dispatch_install_only by done.
        rewrite events_bind, ensure_env_run. cbn [fs]. rewrite Habsent, Ht.
        by eexists.
      * rewrite mode_dispatch_full by done.
        rewrite events_bind, ensure_env_run. cbn [fs]. rewrite Habsent, Ht.
        by eexists.
    + intros Hmode. rewrite Hrun.
      erewrite bind_outcome
        by (rewrite mode_dispatch_run_only by done; cbn [fs];
            rewrite Habsent; reflexivity).
      done.
  - intros why Hio. unfold main_run.
    rewrite (rmtree_refused _ w why Hio) in Hstep. cbn in Hstep.
    by erewrite bind_outcome by exact Hstep.
Qed.

(** [setup.py install-only --clean] on a machine where the environment
    exists: it is removed, then created again. *)
Lemma clean_removes_environment_first_witness :
  effects (events
    (@main_run (Posix.machine [] []) ["setup.py"; "install-only"; "--clean"]
       (Settings "/proj" "/proj/main.py" "/proj/requirements.txt"
          "/proj/venv" "python3")
       (World {[ "/proj/venv" := Dir;
                 "/proj/venv/bin/python" := File "" ]} "/proj")))
  = [Remove; Create; Install].
Proof.
  destruct (@clean_removes_environment_first (Posix.machine [] [])
    ["setup.py"; "install-only"; "--clean"]
    (Settings "/proj" "/proj/main.py" "/proj/requirements.txt"
       "/proj/venv" "python3")
    (World {[ "/proj/venv" := Dir; "/proj/venv/bin/python" := File "" ]}
       "/proj")) as (_ & Hremoved & _).
  - cbn. by apply (bool_decide_unpack _).
  - reflexivity.
  - destruct (Hremoved eq_refl) as (_ & _ & _ & -> & _). reflexivity.
Defined.

(** ** Running [full] twice *)

Lemma install_requirements_cases `{Platform} venv req w :
  res (install_requirements venv req w) = Ok tt
  ∨ ∃ e, res (install_requirements venv req w) = Raise e.
Proof.
  unfold install_requirements. steps. rewrite !res_after.
  destruct (present (fs w) req).
  - steps. rewrite res_after. apply subprocess_run_cases.
  - steps. rewrite res_after, res_bind.
    destruct (write_file_cases req "" w) as [(-> & _)|(why & -> & _)];
      [|eauto].
    steps. rewrite res_after. apply subprocess_run_cases.
Qed.

Lemma main_run_full_found `{Platform} argv s w :
  selected_mode argv = "full" →
  clean_requested argv = false →
  present (fs w) (venv_dir s) = true →
  let o := main_run argv s w in
  let i := install_requirements (venv_dir s) (requirements_file s) w in
  (res i = Ok tt → effects (events o) = [Install; Run])
  ∧ (∀ e, res i = Raise e →
       effects (events o) = [Install] ∧ res o = Raise e).
Proof.
  intros Hmode Hclean Hfound. cbn zeta. unfold main_run.
  erewrite bind_outcome by (apply clean_step_skip; by rewrite Hclean).
  cbv iota. rewrite after_nil.
  assert (Hdispatch : mode_dispatch argv s w =
    bind (install_requirements (venv_dir s) (requirements_file s))
      (fun _ => run_main_script argv (venv_dir s) (main_file s)) w).
  { rewrite mode_dispatch_full by done.
    erewrite bind_outcome by (rewrite ensure_env_run, Hfound; reflexivity).
    cbv iota. apply after_nil. }
  rewrite res_bind, events_bind, effects_app, Hdispatch.
  rewrite res_bind, events_bind, effects_app, effects_install_requirements.
  split.
  - intros ->. rewrite effects_run_main_script.
    destruct (res (run_main_script _ _ _ _)); by norm.
  - by intros e ->.
Qed.



(** ** Sample runs on the POSIX machine *)

(** From an empty directory, [setup.py full --foo bar] creates the
    environment, installs and runs, and hands [--foo bar] to the script. *)
Example full_run_from_scratch :
  let o := @program (Posix.machine [("python3", "Python 3.12")] [])
             ["setup.py"; "full"; "--foo"; "bar"] Posix.empty_world in
  res o = Ok tt
  ∧ effects (events o) = [Create; Install; Run]
  ∧ last (spawned (events o))
    = Some ["/proj/venv/bin/python"; "/proj/main.py"; "--foo"; "bar"].
Proof. vm_compute. done. Qed.

(** The version test is a suffix test: an interpreter that prints
    [Python 3.12.1] is not taken for [3.12]. *)
Example locator_wants_the_exact_suffix :
  res (@find_python_executable
         (Posix.machine [("python3", "Python 3.12.1")] [])
         (PStr "3.12") Posix.empty_world) = Ok None
  ∧ res (@find_python_executable
           (Posix.machine [("python3", "Python 3.12" +:+ newline)] [])
           (PStr "3.12") Posix.empty_world) = Ok (Some "python3").
Proof. vm_compute. done. Qed.

(** A configuration whose [python_version] is empty stops the run with
    [IndexError]; the fallback to the running interpreter is not reached. *)
Example empty_version_stops_the_run :
  let config := "{" +:+ Posix.quoted "python_version" +:+ ": "
                +:+ Posix.quoted "" +:+ "}" in
  let o := @program (Posix.machine [] []) ["setup.py"]
             (World {[ "/proj/setup-config.json" := File config ]} "/proj") in
  res o = Raise IndexError ∧ spawned (events o) = [].
Proof. vm_compute. done. Qed.

(** * Further properties of the script's functions *)

(** ** Running one command *)

Lemma bind_unfold {A B} (m : M A) (k : A -> M B) w :
  bind m k w =
  match res (m w) with
  | Ok a => after (events (m w)) (k a (final (m w)))
  | Raise e => Outcome (Raise e) (final (m w)) (events (m w))
  | Exit c => Outcome (Exit c) (final (m w)) (events (m w))
  end.
Proof. reflexivity. Qed.

Lemma subprocess_run_run `{Platform} argv w :
  subprocess_run argv w =
  Outcome
    (match (spawn argv (fs w)).1 with
     | NotLaunched why => Raise (OSError why (hd "" argv))
     | Exited code _ =>
         if (code =? 0)%Z then Ok tt else Raise (CalledProcessError argv code)
     end)
    (after_command argv w)
    [EvSpawn argv].
Proof.
  unfold subprocess_run, run_child, after_command. steps.
  destruct (spawn argv (fs w)) as [[why|code output] f']; cbn [fst snd];
    steps; [done|].
  destruct (code =? 0)%Z; by steps.
Qed.

Lemma subprocess_run_succeeds `{Platform} argv w :
  succeeds argv w →
  subprocess_run argv w = Outcome (Ok tt) (after_command argv w) [EvSpawn argv].
Proof. intros [output Hrun]. by rewrite subprocess_run_run, Hrun. Qed.

Lemma subprocess_run_exits_with `{Platform} argv w code :
  exits_with argv w code →
  subprocess_run argv w =
  Outcome (Raise (CalledProcessError argv code)) (after_command argv w)
    [EvSpawn argv].
Proof.
  intros (output & Hrun & Hcode). rewrite subprocess_run_run, Hrun.
  by destruct (Z.eqb_spec code 0).
Qed.

Lemma read_file_cases `{Platform} p w :
  (∃ text, read_file p w = Outcome (Ok text) w []
           ∧ io_error OpRead p (fs w) = None
           ∧ fs w !! p = Some (File text))
  ∨ (∃ why, read_file p w = Outcome (Raise (OSError why p)) w []).
Proof.
  unfold read_file. steps.
  destruct (io_error OpRead p (fs w)) as [why|] eqn:Hio; [right; by eexists|].
  destruct (fs w !! p) as [[|text]|] eqn:Hp.
  - right. by eexists.
  - left. by exists text.
  - right. by eexists.
Qed.

Lemma write_file_run `{Platform} p c w :
  write_file p c w =
  Outcome (Ok tt) (World (<[p := File c]> (fs w)) (cwd w)) [EvWrite p c]
  ∨ ∃ why, write_file p c w = Outcome (Raise (OSError why p)) w [EvWrite p c].
Proof.
  unfold write_file. steps.
  destruct (io_error OpWrite p (fs w)) as [why|]; [right; by eexists|].
  destruct (fs w !! p) as [[|text]|]; steps; [right; by eexists|by left..].
Qed.

(** ** More on the configuration loader *)

Lemma load_config_ok_inv `{Platform} w config d :
  res (load_config w) = Ok (config, d) →
  d = script_dir
  ∧ ∃ text,
      io_error OpRead config_file (fs (final (load_config w))) = None
      ∧ fs (final (load_config w)) !! config_file = Some (File text)
      ∧ json_load text = Some config.
Proof.
  unfold load_config. steps.
  destruct (present (fs w) config_file); steps.
  - destruct (read_file_cases config_file w)
      as [(text & Hread & Hio & Hfile)|(why & Hread)];
      erewrite bind_outcome by exact Hread; steps; [|done].
    destruct (json_load text) as [v|] eqn:Hload; steps; [|done].
    intros [= <- <-]. split; [done|]. by exists text.
  - destruct (write_file_run config_file (json_dump default_config) w)
      as [Hwrite|[why Hwrite]];
      erewrite bind_outcome by exact Hwrite; steps; [|done].
    match goal with
    | |- context [bind (read_file _) _ ?w1] =>
        destruct (read_file_cases config_file w1)
          as [(text & Hread & Hio & Hfile)|(why & Hread)]
    end; erewrite bind_outcome by exact Hread; steps; [|done].
    destruct (json_load text) as [v|] eqn:Hload; steps; [|done].
    intros [= <- <-]. split; [done|]. by exists text.
Qed.

Lemma load_config_present_run `{Platform} w :
  present (fs w) config_file = true →
  load_config w =
  after [EvCall FLoadConfig]
    (bind (read_file config_file)
       (fun text =>
          bind (match json_load text with
                | Some v => ret v
                | None => raise JSONDecodeError
                end)
            (fun config => ret (config, script_dir))) w).
Proof. intros Hfound. unfold load_config. steps. rewrite Hfound. by steps. Qed.



(** X2: loading the configuration is idempotent: once [load_config] has
    returned, calling it again in the world it left returns the same record,
    writes nothing and changes nothing. *)
Theorem load_config_again `{Platform} (w : world) (x : pyval * string) :
  res (load_config w) = Ok x →
  load_config (final (load_config w)) =
  Outcome (Ok x) (final (load_config w)) [EvCall FLoadConfig].
Proof.
  destruct x as [config d]. intros Hres.
  destruct (load_config_ok_inv w config d Hres)
    as (-> & text & Hio & Hfile & Hload).
  rewrite load_config_present_run.
  - step by (by apply read_file_ok).
    rewrite Hload. steps. by destruct (final (load_config w)).
  - unfold present. rewrite Hfile. apply bool_decide_eq_true. eauto.
Qed.

(** From an empty directory: the second load returns the defaults the first
    one wrote. *)
Lemma load_config_again_witness :
  let first := @load_config (Posix.machine [] []) Posix.empty_world in
  res (@load_config (Posix.machine [] []) (final first))
  = Ok (default_config, "/proj").
Proof.
  cbn zeta.
  by rewrite (@load_config_again (Posix.machine [] []) Posix.empty_world
                (default_config, "/proj") eq_refl).
Defined.

(** ** The settings [main] works with *)

Lemma outcome_eta {A} (o : outcome A) : o = Outcome (res o) (final o) (events o).
Proof. by destruct o. Qed.

(** What [main] does between loading the configuration and the mode logic,
    by what the configuration holds. *)
Lemma main_resolve_with_config `{Platform} w entries d :
  res (load_config w) = Ok (PDict entries, d) →
  let w1 := World (fs (final (load_config w))) script_dir in
  let version :=
    from_option id (PStr "3.12") (dict_lookup "python_version" entries) in
  main_resolve w =
  after (events (load_config w) ++ [EvChdir script_dir])
    match config_path entries "main_file" "main.py",
          config_path entries "requirements_file" "requirements.txt",
          config_path entries "venv_dir" "venv" with
    | Some mf, Some rf, Some vd =>
        bind (select_python version)
          (fun selected => ret (Settings script_dir mf rf vd selected)) w1
    | _, _, _ => Outcome (Raise TypeError) w1 []
    end.
Proof.
  intros Hres. cbn zeta.
  destruct (load_config_ok_inv w _ _ Hres) as [-> _].
  unfold main_resolve. rewrite bind_unfold, Hres. cbv beta iota.
  unfold config_get, join_script_dir, config_path. steps.
  destruct (from_option id (PStr "main.py") (dict_lookup "main_file" entries));
    steps; try done.
  destruct (from_option id (PStr "requirements.txt")
              (dict_lookup "requirements_file" entries)); steps; try done.
  destruct (from_option id (PStr "venv") (dict_lookup "venv_dir" entries));
    steps; done.
Qed.

(** X3: the paths [main] works with are those of the configuration, joined
    to the script's directory; a key the configuration lacks gets its
    default ([main.py], [requirements.txt], [venv], and version [3.12] for
    the interpreter). *)
Theorem settings_follow_configuration `{Platform} (w : world)
  (entries : list (string * pyval)) (d : string) (s : settings) :
  res (load_config w) = Ok (PDict entries, d) →
  res (main_resolve w) = Ok s →
  dir s = script_dir
  ∧ config_path entries "main_file" "main.py" = Some (main_file s)
  ∧ config_path entries "requirements_file" "requirements.txt"
    = Some (requirements_file s)
  ∧ config_path entries "venv_dir" "venv" = Some (venv_dir s)
  ∧ res (select_python
           (from_option id (PStr "3.12") (dict_lookup "python_version" entries))
           (World (fs (final (load_config w))) script_dir))
    = Ok (selected_python s)
  ∧ (dict_lookup "main_file" entries = None →
     main_file s = path_join script_dir "main.py")
  ∧ (dict_lookup "requirements_file" entries = None →
     requirements_file s = path_join script_dir "requirements.txt")
  ∧ (dict_lookup "venv_dir" entries = None →
     venv_dir s = path_join script_dir "venv").
Proof.
  intros Hload. rewrite (main_resolve_with_config w entries d Hload).
  cbn zeta. rewrite res_after.
  destruct (config_path entries "main_file" "main.py") as [mf|] eqn:Hmf;
    [|done].
  destruct (config_path entries "requirements_file" "requirements.txt")
    as [rf|] eqn:Hrf; [|done].
  destruct (config_path entries "venv_dir" "venv") as [vd|] eqn:Hvd; [|done].
  rewrite res_bind.
  destruct (res (select_python _ _)) as [selected| |]; [|done..].
  intros [= <-]. cbn [dir main_file requirements_file venv_dir selected_python].
  split_and!; try done.
  - intros Hnone. unfold config_path in Hmf. rewrite Hnone in Hmf.
    by injection Hmf.
  - intros Hnone. unfold config_path in Hrf. rewrite Hnone in Hrf.
    by injection Hrf.
  - intros Hnone. unfold config_path in Hvd. rewrite Hnone in Hvd.
    by injection Hvd.
Qed.

(** An empty record [{}] gives the default paths. *)
Lemma settings_follow_configuration_witness :
  let m := Posix.machine [("python3", "Python 3.12")] [] in
  let w := World {[ "/proj/setup-config.json" := File "{}" ]} "/proj" in
  ∃ s, res (@main_resolve m w) = Ok s
       ∧ main_file s = "/proj/main.py"
       ∧ requirements_file s = "/proj/requirements.txt"
       ∧ venv_dir s = "/proj/venv".
Proof.
  cbn zeta.
  exists (Settings "/proj" "/proj/main.py" "/proj/requirements.txt"
            "/proj/venv" "python3").
  destruct (@settings_follow_configuration
    (Posix.machine [("python3", "Python 3.12")] [])
    (World {[ "/proj/setup-config.json" := File "{}" ]} "/proj") [] "/proj"
    (Settings "/proj" "/proj/main.py" "/proj/requirements.txt"
       "/proj/venv" "python3"))
    as (_ & _ & _ & _ & _ & Hmain & Hreq & Hvenv); [reflexivity..|].
  split; [reflexivity|].
  split; [exact (Hmain eq_refl)|].
  split; [exact (Hreq eq_refl)|exact (Hvenv eq_refl)].
Defined.

Lemma spawned_load_config `{Platform} w : spawned (events (load_config w)) = [].
Proof.
  unfold load_config. steps.
  destruct (present (fs w) config_file); steps; by exec.
Qed.

(** X4: a configuration that is not what the script expects stops the run
    before anything is started.  When the document is not a record, the
    program raises [AttributeError] at its first [config.get], right after
    loading; when the record gives something that is not a string for the
    main file, the requirements file or the environment directory, [main]
    raises [TypeError] before it looks for an interpreter: no command is
    started and none of the four side effects happens. *)
Theorem malformed_configuration_stops_early `{Platform} (argv : list string)
  (w : world) (config : pyval) (d : string) :
  res (load_config w) = Ok (config, d) →
  ((∀ entries, config ≠ PDict entries) →
     program argv w =
     Outcome (Raise AttributeError) (final (load_config w))
       (events (load_config w)))
  ∧ (∀ entries,
       config = PDict entries →
       config_path entries "main_file" "main.py" = None
       ∨ config_path entries "requirements_file" "requirements.txt" = None
       ∨ config_path entries "venv_dir" "venv" = None →
       res (main argv w) = Raise TypeError
       ∧ spawned (events (main argv w)) = []
       ∧ effects (events (main argv w)) = []).
Proof.
  intros Hload. split.
  - intros Hrecord. unfold program. rewrite bind_unfold, Hload. cbv beta iota.
    destruct config as [| | | | |entries]; [..|by destruct (Hrecord entries)];
      unfold config_get; steps; unfold after; cbn [res final events];
      by rewrite app_nil_r.
  - intros entries -> Hbad. unfold main. steps.
    rewrite res_after, events_after, bind_unfold.
    rewrite (main_resolve_with_config w entries d Hload). cbn zeta.
    assert (Hstop :
      match config_path entries "main_file" "main.py",
            config_path entries "requirements_file" "requirements.txt",
            config_path entries "venv_dir" "venv" with
      | Some mf, Some rf, Some vd =>
          bind (select_python
                  (from_option id (PStr "3.12")
                     (dict_lookup "python_version" entries)))
            (fun selected => ret (Settings script_dir mf rf vd selected))
            (World (fs (final (load_config w))) script_dir)
      | _, _, _ =>
          Outcome (Raise TypeError)
            (World (fs (final (load_config w))) script_dir) []
      end
      = Outcome (Raise TypeError)
          (World (fs (final (load_config w))) script_dir) []).
    { destruct Hbad as [->|[Hbad|Hbad]]; [done| |].
      - rewrite Hbad. by destruct (config_path entries "main_file" "main.py").
      - rewrite Hbad. destruct (config_path entries "main_file" "main.py");
          by destruct
               (config_path entries "requirements_file" "requirements.txt"). }
    rewrite Hstop. cbn [res final events after].
    rewrite !spawned_app, !effects_app, spawned_load_config, effects_load_config.
    done.
Qed.

(** A configuration that is a list, and one whose environment directory is
    a number. *)
Lemma malformed_configuration_stops_early_witness :
  let w := World {[ "/proj/setup-config.json" := File "..." ]} "/proj" in
  res (@program (machine_reading (PList [])) ["setup.py"] w)
  = Raise AttributeError
  ∧ res (@main (machine_reading (PDict [("venv_dir", PNum "3")]))
           ["setup.py"] w)
    = Raise TypeError.
Proof.
  cbn zeta. split.
  - destruct (@malformed_configuration_stops_early
      (machine_reading (PList [])) ["setup.py"]
      (World {[ "/proj/setup-config.json" := File "..." ]} "/proj")
      (PList []) "/proj") as [Hlist _]; [reflexivity|].
    by rewrite Hlist.
  - destruct (@malformed_configuration_stops_early
      (machine_reading (PDict [("venv_dir", PNum "3")])) ["setup.py"]
      (World {[ "/proj/setup-config.json" := File "..." ]} "/proj")
      (PDict [("venv_dir", PNum "3")]) "/proj") as [_ Hrecord];
      [reflexivity|].
    destruct (Hrecord _ eq_refl) as [Hres _]; [|exact Hres].
    right. right. reflexivity.
Defined.

(** ** The locator on versions that are not strings *)

Lemma try_candidate_list `{Platform} items cmd w :
  try_candidate (PList items) cmd w =
  Outcome (Ok None) (after_command (probe cmd) w) [EvSpawn (probe cmd)].
Proof.
  unfold try_candidate, try_except, endswith_py, bind, probe, after_command.
  rewrite check_output_decode_run. cbn [res final events after].
  destruct (spawn _ _) as [[why|code [text|]] f'];
    cbn [fst snd]; try destruct (code =? 0)%Z;
    cbn [res final events after ret raise app]; done.
Qed.

Lemma probe_candidates_list `{Platform} items candidates w :
  res (probe_candidates (PList items) candidates w) = Ok None
  ∧ events (probe_candidates (PList items) candidates w)
    = (fun c => EvSpawn (probe c)) <$> candidates.
Proof.
  revert w. induction candidates as [|cmd rest IH]; intros w; [done|].
  cbn [probe_candidates].
  erewrite bind_outcome by apply try_candidate_list. cbv iota.
  rewrite res_after, events_after.
  destruct (IH (after_command (probe cmd) w)) as [-> ->]. done.
Qed.

(** X5: [find_python_executable] on a [python_version] that is not a
    string.  A number, a boolean or [null] cannot be indexed: [TypeError];
    a record has no key [0]: [KeyError]; an empty list: [IndexError]; all
    three before any command is started.  A list that is not empty goes
    through: the three candidates are all probed, none can match (the suffix
    test raises inside the [try]), the result is [None] and the caller goes
    on with the running interpreter. *)
Theorem locator_on_other_values `{Platform} (w : world) :
  (find_python_executable PNone w =
     Outcome (Raise TypeError) w [EvCall FFindPythonExecutable])
  ∧ (∀ b, find_python_executable (PBool b) w =
          Outcome (Raise TypeError) w [EvCall FFindPythonExecutable])
  ∧ (∀ lit, find_python_executable (PNum lit) w =
            Outcome (Raise TypeError) w [EvCall FFindPythonExecutable])
  ∧ (∀ entries, find_python_executable (PDict entries) w =
                Outcome (Raise KeyError) w [EvCall FFindPythonExecutable])
  ∧ (find_python_executable (PList []) w =
       Outcome (Raise IndexError) w [EvCall FFindPythonExecutable])
  ∧ (∀ x items,
       let version := PList (x :: items) in
       let o := find_python_executable version w in
       res o = Ok None
       ∧ spawned (events o) =
           probe <$> ["python" +:+ py_repr version; "python" +:+ py_format x;
                      "python"]
       ∧ res (select_python version w) = Ok sys_executable).
Proof.
  split_and!; try done.
  intros x items. cbn zeta.
  assert (Hfind :
    res (find_python_executable (PList (x :: items)) w) = Ok None
    ∧ events (find_python_executable (PList (x :: items)) w) =
        EvCall FFindPythonExecutable
        :: ((fun c => EvSpawn (probe c)) <$>
              ["python" +:+ py_repr (PList (x :: items));
               "python" +:+ py_format x; "python"])).
  { unfold find_python_executable, getitem0. steps.
    rewrite res_after, events_after.
    by destruct (probe_candidates_list (x :: items)
      ["python" +:+ py_format (PList (x :: items)); "python" +:+ py_format x;
       "python"] w) as [-> ->]. }
  destruct Hfind as [Hres Hevents]. split_and!.
  - done.
  - rewrite Hevents. done.
  - unfold select_python. rewrite res_bind, Hres. by steps.
Qed.

(** ** Creating the environment, installing, running *)

Lemma create_virtualenv_run `{Platform} py venv w :
  create_virtualenv py venv w =
  after [EvCall FCreateVirtualenv; EvPrint "Creating virtual environment..."]
    (bind (subprocess_run (venv_command py venv))
       (fun _ =>
          print "Upgrading pip...";;
          subprocess_run (pip_upgrade_command venv)) w).
Proof. unfold create_virtualenv. by steps. Qed.

(** X6: [create_virtualenv] starts the environment tool with the chosen
    interpreter and then upgrades pip with the interpreter inside the new
    environment; it writes no file itself.  When the first command exits
    with a status other than 0, or cannot be started, the exception leaves
    the function and pip is not touched; when the upgrade exits with a
    status other than 0, that is the [CalledProcessError] raised. *)
Theorem create_virtualenv_then_upgrades_pip `{Platform} (py venv : string)
  (w : world) :
  let o := create_virtualenv py venv w in
  let create := venv_command py venv in
  let upgrade := pip_upgrade_command venv in
  let w1 := after_command create w in
  writes (events o) = []
  ∧ (succeeds create w →
     spawned (events o) = [create; upgrade]
     ∧ final o = after_command upgrade w1
     ∧ (succeeds upgrade w1 → res o = Ok tt)
     ∧ (∀ code, exits_with upgrade w1 code →
          res o = Raise (CalledProcessError upgrade code)))
  ∧ (∀ code, exits_with create w code →
       res o = Raise (CalledProcessError create code)
       ∧ spawned (events o) = [create] ∧ final o = w1)
  ∧ (∀ why, (spawn create (fs w)).1 = NotLaunched why →
       res o = Raise (OSError why py) ∧ spawned (events o) = [create]).
Proof.
  cbn zeta. split_and!.
  - unfold create_virtualenv. exec.
  - intros Hcreate. rewrite create_virtualenv_run.
    step by (by apply subprocess_run_succeeds).
    rewrite subprocess_run_run. cbn [res final events after app].
    split_and!; [done|done| |].
    + intros [output ->]. done.
    + intros code (output & -> & Hcode). by destruct (Z.eqb_spec code 0).
  - intros code Hcreate. rewrite create_virtualenv_run.
    erewrite bind_outcome by (by apply subprocess_run_exits_with). done.
  - intros why Hcreate. rewrite create_virtualenv_run.
    rewrite bind_unfold, subprocess_run_run, Hcreate. done.
Qed.

Lemma install_requirements_run `{Platform} venv req w :
  install_requirements venv req w =
  after [EvCall FInstallRequirements]
    (if present (fs w) req then
       after [EvPrint "Installing requirements..."]
         (subprocess_run (pip_install_command venv req) w)
     else
       after [EvPrint "requirements.txt not found. Creating an empty one..."]
         (bind (write_file req "")
            (fun _ =>
               print "Installing requirements...";;
               subprocess_run (pip_install_command venv req)) w)).
Proof.
  unfold install_requirements. steps. by destruct (present (fs w) req); steps.
Qed.

(** X7: [install_requirements] never touches a requirements file that is
    there: it only starts [pip install -r] on it.  When the file is missing
    it first writes an empty one and starts the same command in the world
    with that file; when the write fails, the exception leaves the function
    and pip is not started.  The result is that of the pip command. *)
Theorem install_requirements_creates_only_when_missing `{Platform}
  (venv req : string) (w : world) :
  let o := install_requirements venv req w in
  let install := pip_install_command venv req in
  (present (fs w) req = true →
     writes (events o) = []
     ∧ spawned (events o) = [install]
     ∧ res o = res (subprocess_run install w)
     ∧ final o = after_command install w)
  ∧ (present (fs w) req = false →
     writes (events o) = [EvWrite req ""]
     ∧ (res (write_file req "" w) = Ok tt →
        let w1 := World (<[req := File ""]> (fs w)) (cwd w) in
        spawned (events o) = [install]
        ∧ res o = res (subprocess_run install w1)
        ∧ final o = after_command install w1)
     ∧ (∀ e, res (write_file req "" w) = Raise e →
          res o = Raise e ∧ spawned (events o) = [] ∧ final o = w)).
Proof.
  cbn zeta. rewrite install_requirements_run. split.
  - intros ->. rewrite subprocess_run_run. done.
  - intros ->. cbn [res final events after].
    destruct (write_file_run req "" w) as [Hwrite|[why Hwrite]];
      erewrite bind_outcome by exact Hwrite; steps;
      rewrite ?subprocess_run_run, Hwrite; cbn [res final events after app].
    + split_and!; [done| |done]. intros _. done.
    + split_and!; [done|done|]. by intros e [= <-].
Qed.

Lemma run_main_script_run `{Platform} argv venv mf w :
  run_main_script argv venv mf w =
  after [EvCall FRunMainScript]
    (if present (fs w) mf then
       after [EvPrint ("Running " +:+ mf +:+ "...")]
         (subprocess_run (script_command argv venv mf) w)
     else
       after [EvPrint "Main script not found. Creating a default one..."]
         (bind (write_file mf (placeholder mf))
            (fun _ =>
               print ("Running " +:+ mf +:+ "...");;
               subprocess_run (script_command argv venv mf)) w)).
Proof.
  unfold run_main_script. steps. by destruct (present (fs w) mf); steps.
Qed.

(** X8: [run_main_script] never overwrites a main file that is there.
    When the file is missing it writes the one-line placeholder and runs
    that.  The script's status decides the result: 0 returns, any other
    status [code] raises [CalledProcessError] with the command and [code];
    the world left is the one the script left. *)
Theorem run_main_script_creates_only_when_missing `{Platform}
  (argv : list string) (venv mf : string) (w : world) :
  let o := run_main_script argv venv mf w in
  let run := script_command argv venv mf in
  (present (fs w) mf = true →
     writes (events o) = []
     ∧ final o = after_command run w
     ∧ (succeeds run w → res o = Ok tt)
     ∧ (∀ code, exits_with run w code →
          res o = Raise (CalledProcessError run code)))
  ∧ (present (fs w) mf = false →
     writes (events o) = [EvWrite mf (placeholder mf)]
     ∧ (res (write_file mf (placeholder mf) w) = Ok tt →
        let w1 := World (<[mf := File (placeholder mf)]> (fs w)) (cwd w) in
        final o = after_command run w1
        ∧ (succeeds run w1 → res o = Ok tt)
        ∧ (∀ code, exits_with run w1 code →
             res o = Raise (CalledProcessError run code)))
     ∧ (∀ e, res (write_file mf (placeholder mf) w) = Raise e →
          res o = Raise e ∧ spawned (events o) = [] ∧ final o = w)).
Proof.
  cbn zeta. rewrite run_main_script_run. split.
  - intros ->. rewrite subprocess_run_run. cbn [res final events after app].
    split_and!; [done|done| |].
    + intros [output ->]. done.
    + intros code (output & -> & Hcode). by destruct (Z.eqb_spec code 0).
  - intros ->. cbn [res final events after].
    destruct (write_file_run mf (placeholder mf) w) as [Hwrite|[why Hwrite]];
      erewrite bind_outcome by exact Hwrite; steps;
      rewrite ?subprocess_run_run, Hwrite; cbn [res final events after app].
    + split_and!; [done| |done]. intros _. split_and!; [done| |].
      * intros [output ->]. done.
      * intros code (output & -> & Hcode). by destruct (Z.eqb_spec code 0).
    + split_and!; [done|done|]. by intros e [= <-].
Qed.

(** ** What the run can change on disk *)

Lemma writes_bind_sublist {A B} (m : M A) (k : A -> M B) w l1 l2 :
  writes (events (m w)) `sublist_of` l1 →
  (∀ a w', writes (events (k a w')) `sublist_of` l2) →
  writes (events (bind m k w)) `sublist_of` l1 ++ l2.
Proof.
  intros Hm Hk. rewrite events_bind, writes_app. apply sublist_app; [done|].
  destruct (res (m w)); [apply Hk|apply sublist_nil_l..].
Qed.

Ltac sublist_auto :=
  repeat first [apply sublist_nil_l | apply sublist_skip | apply sublist_cons].

Lemma writes_create_virtualenv `{Platform} py venv w :
  writes (events (create_virtualenv py venv w)) = [].
Proof. unfold create_virtualenv. exec. Qed.

Lemma writes_install_requirements `{Platform} venv req w :
  writes (events (install_requirements venv req w))
  = if present (fs w) req then [] else [EvWrite req ""].
Proof.
  rewrite install_requirements_run.
  destruct (present (fs w) req); [by norm|].
  norm. by destruct (res (write_file req "" w)); norm.
Qed.

Lemma writes_run_main_script `{Platform} argv venv mf w :
  writes (events (run_main_script argv venv mf w))
  = if present (fs w) mf then [] else [EvWrite mf (placeholder mf)].
Proof.
  rewrite run_main_script_run.
  destruct (present (fs w) mf); [by norm|].
  norm. by destruct (res (write_file mf (placeholder mf) w)); norm.
Qed.

Lemma writes_cleanup_temp_files `{Platform} d w :
  writes (events (cleanup_temp_files d w))
  = if present (fs w) (temp_file d) then [EvRemove (temp_file d)] else [].
Proof.
  destruct (cleanup_temp_files_cases d w)
    as (_ & [(-> & -> & _)|[(-> & _ & -> & _)|(-> & e & _ & -> & _)]]); done.
Qed.

Lemma writes_clean_step `{Platform} argv s w :
  writes (events (clean_step argv s w))
  = if clean_requested argv && present (fs w) (venv_dir s)
    then [EvRmtree (venv_dir s)] else [].
Proof.
  destruct (clean_requested argv && present (fs w) (venv_dir s)) eqn:Hclean.
  - apply andb_true_iff in Hclean as [Hc Hfound].
    rewrite clean_step_remove by done. by norm.
  - by rewrite clean_step_skip.
Qed.

Lemma writes_ensure_env `{Platform} s w : writes (events (ensure_env s w)) = [].
Proof.
  rewrite ensure_env_run. destruct (present (fs w) (venv_dir s)); [done|].
  apply writes_create_virtualenv.
Qed.

Lemma writes_mode_dispatch `{Platform} argv s w :
  writes (events (mode_dispatch argv s w)) `sublist_of`
    (if String.eqb (selected_mode argv) "install-only"
     then [EvWrite (requirements_file s) ""]
     else if String.eqb (selected_mode argv) "run-only"
     then [EvWrite (main_file s) (placeholder (main_file s))]
     else [EvWrite (requirements_file s) "";
           EvWrite (main_file s) (placeholder (main_file s))]).
Proof.
  destruct (selected_mode_cases argv) as [Hmode|[Hmode|Hmode]].
  - rewrite mode_dispatch_install_only by done. rewrite Hmode.
    change (String.eqb "install-only" "install-only") with true. cbv iota.
    apply (writes_bind_sublist _ _ _ []); [by rewrite writes_ensure_env|].
    intros _ w'. rewrite writes_install_requirements.
    destruct (present _ _); sublist_auto.
  - rewrite mode_dispatch_run_only by done. rewrite Hmode.
    change (String.eqb "run-only" "install-only") with false.
    change (String.eqb "run-only" "run-only") with true. cbv iota.
    destruct (present (fs w) (venv_dir s)); [|sublist_auto].
    rewrite writes_run_main_script. destruct (present _ _); sublist_auto.
  - rewrite mode_dispatch_full by done. rewrite Hmode.
    change (String.eqb "full" "install-only") with false.
    change (String.eqb "full" "run-only") with false. cbv iota.
    apply (writes_bind_sublist _ _ _ []); [by rewrite writes_ensure_env|].
    intros _ w'.
    apply (writes_bind_sublist _ _ _ [EvWrite (requirements_file s) ""]
             [EvWrite (main_file s) (placeholder (main_file s))]).
    + rewrite writes_install_requirements. destruct (present _ _); sublist_auto.
    + intros _ w''. rewrite writes_run_main_script.
      destruct (present _ _); sublist_auto.
Qed.

Lemma main_run_writes `{Platform} argv s w :
  writes (events (main_run argv s w)) `sublist_of` touched s.
Proof.
  unfold main_run, touched.
  apply (writes_bind_sublist _ _ _ [EvRmtree (venv_dir s)]
           [EvWrite (requirements_file s) "";
            EvWrite (main_file s) (placeholder (main_file s));
            EvRemove (temp_file (dir s))]).
  { rewrite writes_clean_step. destruct (_ && _); sublist_auto. }
  intros _ w1.
  apply (writes_bind_sublist _ _ _
           [EvWrite (requirements_file s) "";
            EvWrite (main_file s) (placeholder (main_file s))]
           [EvRemove (temp_file (dir s))]).
  - etrans; [apply writes_mode_dispatch|].
    destruct (String.eqb _ "install-only"); [sublist_auto|].
    destruct (String.eqb _ "run-only"); sublist_auto.
  - intros _ w2. rewrite writes_cleanup_temp_files.
    destruct (present _ _); sublist_auto.
Qed.

(** X9: what a run can change on disk.  Once the settings are known,
    [main] attempts at most four changes, in this order and each at most
    once: removing the environment tree, writing an empty requirements
    file, writing the placeholder main file, removing
    [tempCodeRunnerFile.py]; without [--clean] it never removes a tree.
    Over the whole program the only other change is writing the default
    [setup-config.json]. *)
Theorem program_touches_only_its_files `{Platform} (argv : list string)
  (w : world) :
  (∀ s w', writes (events (main_run argv s w')) `sublist_of` touched s)
  ∧ (clean_requested argv = false →
     ∀ s w' path, EvRmtree path ∉ writes (events (main_run argv s w')))
  ∧ (∀ e, e ∈ writes (events (program argv w)) →
       e = EvWrite config_file (json_dump default_config)
       ∨ ∃ s, res (program_resolve w) = Ok s ∧ e ∈ touched s).
Proof.
  split_and!.
  - intros s w'. apply main_run_writes.
  - intros Hclean s w' path Hin.
    revert Hin. unfold main_run. rewrite events_bind.
    rewrite clean_step_skip by (by rewrite Hclean). cbn [res final events app].
    rewrite events_bind, writes_app.
    intros [Hin|Hin]%elem_of_app.
    + pose proof (elem_of_sublist _ _ _ Hin (writes_mode_dispatch argv s w'))
        as Hin'.
      revert Hin'. destruct (String.eqb _ "install-only"); [not_in_list|].
      destruct (String.eqb _ "run-only"); not_in_list.
    + destruct (res (mode_dispatch argv s w')); [|by apply elem_of_nil in Hin..].
      rewrite writes_cleanup_temp_files in Hin. revert Hin.
      destruct (present _ _); not_in_list.
  - intros e. rewrite program_split, events_bind, writes_app.
    destruct (program_resolve_quiet w) as [_ ->].
    intros [Hin|Hin]%elem_of_app.
    + left. destruct (present (fs w) config_file);
        [by apply elem_of_nil in Hin|by apply list_elem_of_singleton in Hin].
    + right. destruct (res (program_resolve w)) as [s| |];
        [|by apply elem_of_nil in Hin..].
      exists s. split; [done|].
      exact (elem_of_sublist _ _ _ Hin (main_run_writes argv s _)).
Qed.

(** ** How a run can end *)

Lemma no_exit_bind {A B} (m : M A) (k : A -> M B) w :
  no_exit (m w) → (∀ a w', no_exit (k a w')) → no_exit (bind m k w).
Proof.
  intros Hm Hk code. rewrite res_bind.
  destruct (res (m w)) as [a|e|c] eqn:Hres; [apply Hk|done|].
  by destruct (Hm c).
Qed.

Lemma no_exit_try_except {A} (body : M A) (handler : exn -> M A) w :
  no_exit (body w) → (∀ e w', no_exit (handler e w')) →
  no_exit (try_except body handler w).
Proof.
  intros Hbody Hhandler code. rewrite res_try_except.
  destruct (res (body w)) as [a|e|c] eqn:Hres; [done|apply Hhandler|].
  by destruct (Hbody c).
Qed.

Lemma no_exit_after {A} t (o : outcome A) : no_exit o → no_exit (after t o).
Proof. done. Qed.

Lemma no_exit_write_file `{Platform} p c w : no_exit (write_file p c w).
Proof.
  intros code. by destruct (write_file_run p c w) as [->|[why ->]].
Qed.

Lemma no_exit_read_file `{Platform} p w : no_exit (read_file p w).
Proof.
  intros code.
  by destruct (read_file_cases p w) as [(text & -> & _)|(why & ->)].
Qed.

Lemma no_exit_os_remove `{Platform} p w : no_exit (os_remove p w).
Proof.
  intros code.
  by destruct (os_remove_cases p w) as [(-> & _)|(e & -> & _)].
Qed.

Lemma no_exit_rmtree `{Platform} p w : no_exit (rmtree p w).
Proof.
  intros code.
  by destruct (rmtree_cases p w) as [(-> & _)|(e & -> & _)].
Qed.

Lemma no_exit_subprocess_run `{Platform} argv w : no_exit (subprocess_run argv w).
Proof.
  intros code. by destruct (subprocess_run_cases argv w) as [->|[e ->]].
Qed.

Lemma no_exit_check_output_decode `{Platform} argv w :
  no_exit (check_output_decode argv w).
Proof.
  intros code. rewrite check_output_decode_run. cbn [res].
  destruct (spawn argv (fs w)).1 as [why|c [text|]]; [done|..];
    by destruct (c =? 0)%Z.
Qed.

Ltac no_exit_leaf :=
  first
    [ apply no_exit_write_file | apply no_exit_read_file
    | apply no_exit_os_remove | apply no_exit_rmtree
    | apply no_exit_subprocess_run | apply no_exit_check_output_decode
    | by intros ? ].

Ltac no_exit_steps :=
  unfold call, print;
  repeat (lazymatch goal with
          | |- no_exit (bind _ _ _) =>
              apply no_exit_bind; [by no_exit_leaf|intros ? ?]
          end);
  try by no_exit_leaf.

Lemma no_exit_load_config `{Platform} w : no_exit (load_config w).
Proof.
  unfold load_config. no_exit_steps.
  apply no_exit_bind.
  { case_match; no_exit_steps. }
  intros ? ?. no_exit_steps.
  apply no_exit_bind; [by case_match|]. intros ? ?. no_exit_steps.
Qed.

Lemma no_exit_probe_candidates `{Platform} version candidates w :
  no_exit (probe_candidates version candidates w).
Proof.
  revert w. induction candidates as [|cmd rest IH]; intros w; [done|].
  cbn [probe_candidates]. apply no_exit_bind.
  - unfold try_candidate. apply no_exit_try_except; [|done].
    no_exit_steps. apply no_exit_bind; [by destruct version|done].
  - intros [c|] w'; [done|apply IH].
Qed.

Lemma no_exit_select_python `{Platform} version w :
  no_exit (select_python version w).
Proof.
  unfold select_python. apply no_exit_bind.
  - unfold find_python_executable. no_exit_steps.
    apply no_exit_bind; [by destruct version as [| | |[|]|[|]|]|].
    intros ? ?. apply no_exit_probe_candidates.
  - intros [cmd|] w'; [destruct (String.eqb cmd "")|]; no_exit_steps.
Qed.

Lemma no_exit_main_resolve `{Platform} w : no_exit (main_resolve w).
Proof.
  unfold main_resolve. apply no_exit_bind; [apply no_exit_load_config|].
  intros [config d] w1. apply no_exit_bind; [done|]. intros _ w2.
  repeat (apply no_exit_bind; [by destruct config|intros ? ?];
          apply no_exit_bind;
          [match goal with |- no_exit (join_script_dir _ ?v _) => by destruct v
           end|intros ? ?]).
  apply no_exit_bind; [by destruct config|intros ? ?].
  apply no_exit_bind; [apply no_exit_select_python|done].
Qed.

Lemma no_exit_program_resolve `{Platform} w : no_exit (program_resolve w).
Proof.
  unfold program_resolve. apply no_exit_bind; [apply no_exit_load_config|].
  intros [config d] w1. apply no_exit_bind; [by destruct config|].
  intros ? ?. no_exit_steps. apply no_exit_main_resolve.
Qed.

Lemma no_exit_create_virtualenv `{Platform} py venv w :
  no_exit (create_virtualenv py venv w).
Proof. unfold create_virtualenv. no_exit_steps. Qed.

Lemma no_exit_install_requirements `{Platform} venv req w :
  no_exit (install_requirements venv req w).
Proof.
  intros code.
  by destruct (install_requirements_cases venv req w) as [->|[e ->]].
Qed.

Lemma no_exit_run_main_script `{Platform} argv venv mf w :
  no_exit (run_main_script argv venv mf w).
Proof.
  rewrite run_main_script_run. apply no_exit_after.
  destruct (present (fs w) mf); apply no_exit_after; no_exit_steps.
Qed.

Lemma no_exit_cleanup_temp_files `{Platform} d w :
  no_exit (cleanup_temp_files d w).
Proof.
  intros code. by destruct (cleanup_temp_files_cases d w) as [-> _].
Qed.

Lemma no_exit_clean_step `{Platform} argv s w : no_exit (clean_step argv s w).
Proof.
  unfold clean_step. apply no_exit_bind.
  - by destruct (clean_requested argv).
  - intros [] w'; no_exit_steps.
Qed.

Lemma no_exit_ensure_env `{Platform} s w : no_exit (ensure_env s w).
Proof.
  rewrite ensure_env_run. destruct (present (fs w) (venv_dir s)); [done|].
  apply no_exit_create_virtualenv.
Qed.

(** The one [sys.exit] the dispatch can reach. *)
Lemma mode_dispatch_exit `{Platform} argv s w code :
  res (mode_dispatch argv s w) = Exit code →
  code = 1%Z ∧ selected_mode argv = "run-only"
  ∧ present (fs w) (venv_dir s) = false.
Proof.
  destruct (selected_mode_cases argv) as [Hmode|[Hmode|Hmode]].
  - rewrite mode_dispatch_install_only by done. intros Hexit.
    destruct (no_exit_bind (ensure_env s)
      (fun _ => install_requirements (venv_dir s) (requirements_file s)) w
      (no_exit_ensure_env s w)
      (fun _ w' => no_exit_install_requirements _ _ w') code Hexit).
  - rewrite mode_dispatch_run_only by done.
    destruct (present (fs w) (venv_dir s)).
    + intros Hexit. by destruct (no_exit_run_main_script _ _ _ _ _ Hexit).
    + by intros [= <-].
  - rewrite mode_dispatch_full by done. intros Hexit.
    destruct (no_exit_bind (ensure_env s)
      (fun _ =>
         install_requirements (venv_dir s) (requirements_file s);;
         run_main_script argv (venv_dir s) (main_file s)) w
      (no_exit_ensure_env s w)
      (fun _ w' =>
         no_exit_bind _ _ w' (no_exit_install_requirements _ _ w')
           (fun _ w'' => no_exit_run_main_script _ _ _ w'')) code Hexit).
Qed.

(** X10: how the program can end.  Its exit status is 0 or 1 and never the
    status of a child: a command that fails becomes an uncaught
    [CalledProcessError], status 1.  Status 0 means every step returned.
    The only [sys.exit] ever reached is the one of [run-only] finding no
    environment directory when it looks for it (after the clean step); the
    branch for an unknown mode is never taken. *)
Theorem program_ends_with_status_0_or_1 `{Platform} (argv : list string)
  (w : world) :
  let o := program argv w in
  (exit_status (res o) = 0%Z ∨ exit_status (res o) = 1%Z)
  ∧ (exit_status (res o) = 0%Z ↔ res o = Ok tt)
  ∧ (∀ code, res o = Exit code →
       code = 1%Z
       ∧ selected_mode argv = "run-only"
       ∧ ∃ s, res (program_resolve w) = Ok s
              ∧ let c := clean_step argv s (final (program_resolve w)) in
                res c = Ok tt
                ∧ present (fs (final c)) (venv_dir s) = false).
Proof.
  cbn zeta.
  assert (Hexit : ∀ code, res (program argv w) = Exit code →
    code = 1%Z ∧ selected_mode argv = "run-only"
    ∧ ∃ s, res (program_resolve w) = Ok s
           ∧ res (clean_step argv s (final (program_resolve w))) = Ok tt
           ∧ present
               (fs (final (clean_step argv s (final (program_resolve w)))))
               (venv_dir s) = false).
  { intros code. rewrite program_split, res_bind.
    destruct (res (program_resolve w)) as [s|e|c] eqn:Hresolve; [|done|].
    - unfold main_run. rewrite res_bind.
      destruct (res (clean_step argv s _)) as [[]|e|c] eqn:Hclean; [|done|].
      + rewrite res_bind.
        destruct (res (mode_dispatch argv s _)) as [[]|e|c] eqn:Hdispatch;
          [|done|].
        * intros Hx. by destruct (no_exit_cleanup_temp_files _ _ _ Hx).
        * intros [= <-].
          destruct (mode_dispatch_exit _ _ _ _ Hdispatch) as (-> & Hmode & Hno).
          split_and!; [done|done|]. by exists s.
      + by destruct (no_exit_clean_step _ _ _ _ Hclean).
    - by destruct (no_exit_program_resolve _ _ Hresolve). }
  split_and!.
  - destruct (res (program argv w)) as [[]|e|c] eqn:Hres; [by left|by right|].
    right. by destruct (Hexit c eq_refl) as [-> _].
  - destruct (res (program argv w)) as [[]|e|c] eqn:Hres; [done|done|].
    destruct (Hexit c eq_refl) as [-> _]. done.
  - exact Hexit.
Qed.

(** ** The flag and the mode on the command line *)

(** X11: [--clean] is recognised wherever it stands after the program name,
    and only there; it takes no part in choosing the mode, and a mode token
    takes no part in the flag: [full --clean] and [--clean full] are the
    same request. *)
Theorem clean_flag_and_mode_are_independent (name : string)
  (before behind : list string) :
  (clean_requested (name :: before) = true ↔ "--clean" ∈ before)
  ∧ selected_mode (name :: before ++ "--clean" :: behind)
    = selected_mode (name :: before ++ behind)
  ∧ (∀ token, token ∈ mode_tokens →
       clean_requested (name :: before ++ token :: behind)
       = clean_requested (name :: before ++ behind)).
Proof.
  split_and!.
  - rewrite clean_requested_spec. cbn [tail]. apply bool_decide_eq_true.
  - unfold selected_mode. cbn [tail]. rewrite !parse_args_mode.
    by rewrite !filter_app, filter_cons, decide_False.
  - intros token Htoken. rewrite !clean_requested_spec. cbn [tail].
    apply bool_decide_ext. rewrite !elem_of_app, elem_of_cons.
    split; [|tauto]. intros [Hin|[<-|Hin]]; [tauto| |tauto].
    apply str_in_spec in Htoken. by vm_compute in Htoken.
Qed.

(** ** Before the mode logic *)

(** X12: in every mode, what the program does before the mode logic (both
    calls of [load_config], the search for the interpreter) leaves the
    environment alone: nothing is removed, created, installed or run, and
    the run does not end in [sys.exit].  The only change on disk is the
    default configuration, written once, and only when the file was absent:
    the second [load_config] never writes. *)
Theorem resolving_changes_only_the_configuration `{Platform} (w : world) :
  let r := program_resolve w in
  effects (events r) = []
  ∧ writes (events r) =
      (if present (fs w) config_file then []
       else [EvWrite config_file (json_dump default_config)])
  ∧ no_exit r
  ∧ (∀ x, res (load_config w) = Ok x →
       writes (events (main_resolve (final (load_config w)))) = []).
Proof.
  cbn zeta. destruct (program_resolve_quiet w) as [Heffects Hwrites].
  split_and!; [done|done|apply no_exit_program_resolve|].
  intros x Hx. destruct (main_resolve_quiet (final (load_config w))) as [_ ->].
  destruct (load_config_writes w) as (_ & _ & Hthere).
  by rewrite (Hthere x Hx).
Qed.
